(** * The dashboard client of the inverter simulator (static/js/app.js)

    A shallow embedding of the browser script: the JSON values it receives,
    the parts of the page it writes, and its polling, rendering, alerting and
    command functions, followed by the properties of the specification.

    Conventions of the model.
    - A JSON payload is a [JsVal]; an object lists its own properties in the
      engine's property order.
    - Numbers are IEEE-754 binary64 values, as [spec_float].
    - What the browser and the engine decide (printing a number, parsing a
      number, formatting a date, the wording of a TypeError) is a [Host].
    - A function that can throw returns a [Completion]; a function that also
      writes the page runs in the monad [M] over the page, so that the writes
      made before a throw stay.
    - An [innerHTML] assignment from a template literal is modelled by a record
      of the strings substituted into the holes of the template, in source
      order; the constant markup between the holes is not modelled.
    - The elements the script looks up by a fixed id are part of the page; the
      Modbus section, whose presence the script tests, and the form controls,
      whose ids are computed, may be missing.
    - An asynchronous function takes the answer of the network as an argument
      ([Reply]): the request is recorded, then the answer decides. *)

From Stdlib Require Import ZArith NArith List String Ascii Bool Lia Arith.
From Stdlib Require Import SpecFloat DecimalString.
Import ListNotations.

Set Warnings "-register-all".

Open Scope list_scope.
Open Scope string_scope.

(* ------------------------------------------------------------------ *)
(** ** Numbers *)

Definition number := spec_float.

Definition prec : Z := 53.
Definition emax : Z := 1024.

Definition num_of_Z (z : Z) : number := binary_normalize prec emax z 0 false.
Definition num_mul (x y : number) : number := SFmul prec emax x y.
Definition num_lt (x y : number) : bool := SFltb x y.
Definition num_nan : number := S754_nan.
Definition num_zero : number := S754_zero false.
Definition is_double (x : number) : bool := valid_binary prec emax x.

(** Decimal digits of a natural number, as [ToString] prints an integer index. *)
Definition digits (n : N) : string := NilZero.string_of_uint (N.to_uint n).

Fixpoint zeros (k : nat) : string :=
  match k with
  | O => ""
  | S k' => String "0" (zeros k')
  end.

(** [Number.prototype.toFixed], step 11: the integer [n] for which
    [n / 10^f - x] is as close to zero as possible, the larger one when there
    are two, for [x = m * 2^e > 0]. *)
Definition fixed_integer (m : positive) (e : Z) (f : nat) : N :=
  let scaled := (Zpos m * 10 ^ Z.of_nat f)%Z in
  Z.to_N (match e with
          | Zneg p => (2 * scaled + 2 ^ Zpos p) / 2 ^ (Zpos p + 1)
          | _ => scaled * 2 ^ e
          end)%Z.

(** The digits of [n] with a point before the last [f] of them, padded with
    zeros on the left up to [f + 1] digits. *)
Definition fixed_digits (n : N) (f : nat) : string :=
  let m := digits n in
  match f with
  | O => m
  | S _ =>
      let m' := if (String.length m <=? f)%nat
                then zeros (f + 1 - String.length m) ++ m else m in
      let k := String.length m' in
      substring 0 (k - f) m' ++ "." ++ substring (k - f) f m'
  end.

(** [x >= 10^21] for [x = m * 2^e]. *)
Definition at_least_1e21 (m : positive) (e : Z) : bool :=
  match e with
  | Zneg p => (10 ^ 21 * 2 ^ Zpos p <=? Zpos m)%Z
  | _ => (10 ^ 21 <=? Zpos m * 2 ^ e)%Z
  end.

(* ------------------------------------------------------------------ *)
(** ** JSON values and errors *)

Inductive JsVal : Type :=
  | JUndef
  | JNull
  | JBool (b : bool)
  | JNum (x : number)
  | JStr (s : string)
  | JArr (items : list JsVal)
  | JObj (props : list (string * JsVal)).

Record JsError := mkError { err_name : string; err_message : string }.

Inductive Completion (A : Type) : Type :=
  | Normal (a : A)
  | Throw (e : JsError).
Arguments Normal {A} a.
Arguments Throw {A} e.

(** What the page's host decides. *)
Class Host := {
  (** [Number::toString] *)
  number_to_string : number -> string;
  (** [StringToNumber], the coercion of a string operand *)
  string_to_number : string -> number;
  (** the global [parseFloat] *)
  parseFloat : string -> number;
  (** [new Date(v).toLocaleTimeString()] *)
  toLocaleTimeString : JsVal -> string;
  (** [new Date(ms).toLocaleTimeString('ko-KR', {hour, minute, second: '2-digit'})] *)
  toLocaleTimeString_ko : number -> string;
  (** message of the TypeError raised when member [k] of [v] cannot be read
      or called *)
  type_error_message : JsVal -> string -> string
}.

Definition assoc (k : string) (props : list (string * JsVal)) : JsVal :=
  match find (fun kv => String.eqb (fst kv) k) props with
  | Some kv => snd kv
  | None => JUndef
  end.

(** Number of UTF-16 code units of a UTF-8 encoded string. *)
Fixpoint utf16_length (s : string) : nat :=
  match s with
  | EmptyString => O
  | String c s' =>
      let b := nat_of_ascii c in
      (if (b <? 128)%nat then 1
       else if (b <? 192)%nat then 0
       else if (b <? 240)%nat then 1 else 2) + utf16_length s'
  end.

Definition upper_ascii (c : ascii) : ascii :=
  let b := nat_of_ascii c in
  if ((97 <=? b) && (b <=? 122))%nat then ascii_of_nat (b - 32) else c.

(** [String.prototype.toUpperCase] on the ASCII letters, the only letters of
    the strings the script upper-cases ('success', 'error', event types). *)
Fixpoint toUpperCase (s : string) : string :=
  match s with
  | EmptyString => EmptyString
  | String c s' => String (upper_ascii c) (toUpperCase s')
  end.

Fixpoint join (sep : string) (l : list string) : string :=
  match l with
  | [] => ""
  | [x] => x
  | x :: rest => x ++ sep ++ join sep rest
  end.

Definition truthy (v : JsVal) : bool :=
  match v with
  | JUndef | JNull => false
  | JBool b => b
  | JNum (S754_zero _) | JNum S754_nan => false
  | JNum _ => true
  | JStr s => negb (String.eqb s "")
  | JArr _ | JObj _ => true
  end.

(** [a || b] *)
Definition js_or (a b : JsVal) : JsVal := if truthy a then a else b.

(** [v === 'lit'] *)
Definition is_string (v : JsVal) (lit : string) : bool :=
  match v with
  | JStr s => String.eqb s lit
  | _ => false
  end.

(** [v !== null && v !== undefined] *)
Definition not_nullish (v : JsVal) : bool :=
  match v with
  | JUndef | JNull => false
  | _ => true
  end.

(** The value of member [k] of a [v] that is neither null nor undefined. *)
Definition member (v : JsVal) (k : string) : JsVal :=
  match v with
  | JObj props => assoc k props
  | JArr items =>
      if String.eqb k "length"
      then JNum (num_of_Z (Z.of_nat (List.length items))) else JUndef
  | JStr s =>
      if String.eqb k "length"
      then JNum (num_of_Z (Z.of_nat (utf16_length s))) else JUndef
  | _ => JUndef
  end.

Section WithHost.
Context `{Host}.

Definition TypeError (v : JsVal) (k : string) : JsError :=
  mkError "TypeError" (type_error_message v k).

(** [ToString], as a template literal and a DOM string attribute apply it;
    an array prints as its elements joined by a comma, null and undefined
    elements as the empty string. *)
Fixpoint to_string (v : JsVal) : string :=
  match v with
  | JUndef => "undefined"
  | JNull => "null"
  | JBool true => "true"
  | JBool false => "false"
  | JNum x => number_to_string x
  | JStr s => s
  | JArr items =>
      join "," (map (fun x => match x with
                              | JUndef | JNull => ""
                              | _ => to_string x
                              end) items)
  | JObj _ => "[object Object]"
  end.

(** [Array.prototype.join] with a separator. *)
Definition array_join (sep : string) (items : list JsVal) : string :=
  join sep (map (fun x => match x with
                          | JUndef | JNull => ""
                          | _ => to_string x
                          end) items).

(** [ToNumber] *)
Definition to_number (v : JsVal) : number :=
  match v with
  | JUndef => num_nan
  | JNull => num_zero
  | JBool true => num_of_Z 1
  | JBool false => num_zero
  | JNum x => x
  | JStr s => string_to_number s
  | JArr _ | JObj _ => string_to_number (to_string v)
  end.

(** [v.k]: reading a member of null or undefined throws. *)
Definition get_prop (v : JsVal) (k : string) : Completion JsVal :=
  match v with
  | JUndef | JNull => Throw (TypeError v k)
  | _ => Normal (member v k)
  end.

(** [v[i]] for an integer index [i]; a string is indexed by bytes here. *)
Definition get_index (v : JsVal) (i : nat) : Completion JsVal :=
  match v with
  | JUndef | JNull => Throw (TypeError v (digits (N.of_nat i)))
  | JArr items => Normal (nth i items JUndef)
  | JObj props => Normal (assoc (digits (N.of_nat i)) props)
  | JStr s =>
      Normal (if (i <? String.length s)%nat then JStr (substring i 1 s) else JUndef)
  | JBool _ | JNum _ => Normal JUndef
  end.

(** [v.length > 0] for a [v] that is neither null nor undefined.  The length
    of an array or a string is a non-negative integer and is compared as one. *)
Definition length_positive (v : JsVal) : bool :=
  match v with
  | JArr items => negb (Nat.eqb (List.length items) 0)
  | JStr s => negb (String.eqb s "")
  | JObj props => num_lt num_zero (to_number (assoc "length" props))
  | _ => false
  end.

(** [v && v.length > 0] *)
Definition has_items (v : JsVal) : bool := truthy v && length_positive v.

(** [Number.prototype.toFixed(f)] on a number, [0 <= f <= 100]. *)
Definition toFixed (x : number) (f : nat) : string :=
  match x with
  | S754_nan | S754_infinity _ => number_to_string x
  | S754_zero _ => fixed_digits 0 f
  | S754_finite s m e =>
      (if s then "-" else "") ++
      (if at_least_1e21 m e then number_to_string (S754_finite false m e)
       else fixed_digits (fixed_integer m e f) f)
  end.

(** [v.toFixed(f)]: only a number has the method. *)
Definition call_toFixed (v : JsVal) (f : nat) : Completion string :=
  match v with
  | JNum x => Normal (toFixed x f)
  | _ => Throw (TypeError v "toFixed")
  end.

(** [v.toUpperCase()]: only a string has the method. *)
Definition call_toUpperCase (v : JsVal) : Completion string :=
  match v with
  | JStr s => Normal (toUpperCase s)
  | _ => Throw (TypeError v "toUpperCase")
  end.

(** [Object.entries(v)] for a [v] that is neither null nor undefined. *)
Definition object_entries (v : JsVal) : list (string * JsVal) :=
  match v with
  | JObj props => props
  | JArr items =>
      map (fun ix => (digits (N.of_nat (fst ix)), snd ix))
          (combine (seq 0 (List.length items)) items)
  | JStr s =>
      map (fun i => (digits (N.of_nat i), JStr (substring i 1 s)))
          (seq 0 (String.length s))
  | _ => []
  end.

End WithHost.

(* ------------------------------------------------------------------ *)
(** ** Computations that write a state and can throw *)

Definition M (St A : Type) : Type := St -> Completion A * St.

Definition ret {St A} (a : A) : M St A := fun s => (Normal a, s).

Definition bind {St A B} (c : M St A) (k : A -> M St B) : M St B :=
  fun s =>
    match c s with
    | (Normal a, s') => k a s'
    | (Throw e, s') => (Throw e, s')
    end.

Definition lift {St A} (c : Completion A) : M St A := fun s => (c, s).

Definition modify {St} (f : St -> St) : M St unit := fun s => (Normal tt, f s).

Definition gets {St A} (f : St -> A) : M St A := fun s => (Normal (f s), s).

(** [try { body } catch (error) { handler }] *)
Definition try_catch {St A} (body : M St A) (handler : JsError -> M St A) : M St A :=
  fun s =>
    match body s with
    | (Normal a, s') => (Normal a, s')
    | (Throw e, s') => handler e s'
    end.

Notation "x <- c ;; k" := (bind c (fun x => k))
  (at level 61, c at next level, right associativity).
Notation "c ;;; k" := (bind c (fun _ => k))
  (at level 61, right associativity).

(** [items.forEach((x, index) => f x index)], from index [i]. *)
Fixpoint forEach {St A} (f : A -> nat -> M St unit) (items : list A) (i : nat)
  : M St unit :=
  match items with
  | [] => ret tt
  | x :: rest => f x i ;;; forEach f rest (S i)
  end.

(** [items.map(f)] for an [f] that can throw. *)
Fixpoint map_items {A B} (f : A -> Completion B) (items : list A)
  : Completion (list B) :=
  match items with
  | [] => Normal []
  | x :: rest =>
      match f x with
      | Throw e => Throw e
      | Normal y =>
          match map_items f rest with
          | Throw e => Throw e
          | Normal ys => Normal (y :: ys)
          end
      end
  end.

(* ------------------------------------------------------------------ *)
(** ** The page *)

(** An inverter card: its class and the holes of its template. *)
Record InverterCard := {
  card_class : string;
  card_title : string;
  badge_class : string;
  badge_text : string;
  pv_power : string;
  pv_voltage : string;
  pv_current : string;
  active_power : string;
  output_voltage : string;
  output_current : string;
  power_factor : string;
  efficiency : string;
  card_index : string;
  mppt_selected : string;
  p_control_selected : string;
  p_control_value : string
}.

(** The elements the Status poller writes: five text nodes and the grid. *)
Record StatusView := {
  plant_id : string;
  update_time : string;
  total_power : string;
  utilization : string;
  reactive_power : string;
  rated_capacity : string;
  inverters_grid : list InverterCard
}.

(** The Chart.js instance: its labels, its first data set and the modes of
    the [update] calls made so far. *)
Record Chart := {
  labels : list string;
  dataset : list JsVal;
  updates : list string
}.

(** A child of the hourly list or of the log pane that is a notice. *)
Inductive HourlyChild :=
  | HourlyItem (hour : string) (accumulated_kwh : string)
  | HourlyNotice (text : string).

Record Indicator := {
  textContent : string;
  className : string;
  title : string
}.

Record SlaveCard := {
  slave_id_text : string;
  total_requests : string;
  total_responses : string;
  read_requests : string;
  write_requests : string;
  error_count : string;
  last_request : string
}.

Record LogEntryView := {
  entry_class : string;
  log_time : string;
  log_event : string;
  log_slave : string;
  log_function : string;
  log_mark : string;
  log_detail : option string
}.

Inductive LogChild :=
  | LogItem (e : LogEntryView)
  | LogNotice (text : string).

Record ModbusView := {
  modbus_status : Indicator;
  modbus_port : string;
  modbus_baudrate : string;
  modbus_slaves : string;
  modbus_slaves_grid : list SlaveCard;
  modbus_log : list LogChild
}.

(** A child of the Modbus section: a created element has a fresh identity. *)
Record Node := {
  node_id : nat;
  node_class : string;
  node_message : string
}.

(** The alert banner: the section it is inserted in ([None] when
    [querySelector('.modbus-section')] finds nothing), the module-level slot
    [modbusAlertElement] and the next identity [createElement] gives. *)
Record Alert := {
  modbus_section : option (list Node);
  modbusAlertElement : option Node;
  next_node : nat
}.

Inductive ConsoleLine :=
  | ConsoleLog (text : string)
  | ConsoleError (label : string) (e : JsError).

Record Request := {
  req_method : string;
  req_url : string;
  req_body : option JsVal
}.

Record Page := {
  status : StatusView;
  powerChart : option Chart;
  hourly_list : list HourlyChild;
  modbus : ModbusView;
  alert : Alert;
  console : list ConsoleLine;
  requests : list Request
}.

(** What the network answers to a [fetch] followed by [response.json()]. *)
Inductive Reply :=
  | NetworkError (e : JsError)
  | BadBody (e : JsError)
  | Json (v : JsVal).

Definition is_transport_failure (r : Reply) : bool :=
  match r with
  | Json _ => false
  | _ => true
  end.

(** *** Writing one part of the page *)

Definition with_status (f : StatusView -> StatusView) (p : Page) : Page :=
  {| status := f (status p); powerChart := powerChart p;
     hourly_list := hourly_list p; modbus := modbus p; alert := alert p;
     console := console p; requests := requests p |}.

Definition with_chart (f : option Chart -> option Chart) (p : Page) : Page :=
  {| status := status p; powerChart := f (powerChart p);
     hourly_list := hourly_list p; modbus := modbus p; alert := alert p;
     console := console p; requests := requests p |}.

Definition with_hourly (f : list HourlyChild -> list HourlyChild) (p : Page) : Page :=
  {| status := status p; powerChart := powerChart p;
     hourly_list := f (hourly_list p); modbus := modbus p; alert := alert p;
     console := console p; requests := requests p |}.

Definition with_modbus (f : ModbusView -> ModbusView) (p : Page) : Page :=
  {| status := status p; powerChart := powerChart p;
     hourly_list := hourly_list p; modbus := f (modbus p); alert := alert p;
     console := console p; requests := requests p |}.

Definition with_alert (f : Alert -> Alert) (p : Page) : Page :=
  {| status := status p; powerChart := powerChart p;
     hourly_list := hourly_list p; modbus := modbus p; alert := f (alert p);
     console := console p; requests := requests p |}.

Definition with_console (f : list ConsoleLine -> list ConsoleLine) (p : Page) : Page :=
  {| status := status p; powerChart := powerChart p;
     hourly_list := hourly_list p; modbus := modbus p; alert := alert p;
     console := f (console p); requests := requests p |}.

Definition with_requests (f : list Request -> list Request) (p : Page) : Page :=
  {| status := status p; powerChart := powerChart p;
     hourly_list := hourly_list p; modbus := modbus p; alert := alert p;
     console := console p; requests := f (requests p) |}.

Definition set_plant_id (s : string) (v : StatusView) : StatusView :=
  {| plant_id := s; update_time := update_time v; total_power := total_power v;
     utilization := utilization v; reactive_power := reactive_power v;
     rated_capacity := rated_capacity v; inverters_grid := inverters_grid v |}.

Definition set_update_time (s : string) (v : StatusView) : StatusView :=
  {| plant_id := plant_id v; update_time := s; total_power := total_power v;
     utilization := utilization v; reactive_power := reactive_power v;
     rated_capacity := rated_capacity v; inverters_grid := inverters_grid v |}.

Definition set_total_power (s : string) (v : StatusView) : StatusView :=
  {| plant_id := plant_id v; update_time := update_time v; total_power := s;
     utilization := utilization v; reactive_power := reactive_power v;
     rated_capacity := rated_capacity v; inverters_grid := inverters_grid v |}.

Definition set_utilization (s : string) (v : StatusView) : StatusView :=
  {| plant_id := plant_id v; update_time := update_time v;
     total_power := total_power v; utilization := s;
     reactive_power := reactive_power v; rated_capacity := rated_capacity v;
     inverters_grid := inverters_grid v |}.

Definition set_reactive_power (s : string) (v : StatusView) : StatusView :=
  {| plant_id := plant_id v; update_time := update_time v;
     total_power := total_power v; utilization := utilization v;
     reactive_power := s; rated_capacity := rated_capacity v;
     inverters_grid := inverters_grid v |}.

Definition set_rated_capacity (s : string) (v : StatusView) : StatusView :=
  {| plant_id := plant_id v; update_time := update_time v;
     total_power := total_power v; utilization := utilization v;
     reactive_power := reactive_power v; rated_capacity := s;
     inverters_grid := inverters_grid v |}.

Definition set_inverters_grid (g : list InverterCard) (v : StatusView) : StatusView :=
  {| plant_id := plant_id v; update_time := update_time v;
     total_power := total_power v; utilization := utilization v;
     reactive_power := reactive_power v; rated_capacity := rated_capacity v;
     inverters_grid := g |}.

(** [console.error(label, error)] and [console.log(text)] *)
Definition console_error (label : string) (e : JsError) : M Page unit :=
  modify (with_console (fun c => c ++ [ConsoleError label e])%list).

Definition console_log (text : string) : M Page unit :=
  modify (with_console (fun c => c ++ [ConsoleLog text])%list).

(** [await fetch(url, {method, body})] then [await response.json()]: the
    request is issued, then the reply decides. *)
Definition fetch_json (method url : string) (body : option JsVal) (r : Reply)
  : M Page JsVal :=
  modify (with_requests (fun q =>
    q ++ [{| req_method := method; req_url := url; req_body := body |}])%list) ;;;
  match r with
  | NetworkError e => lift (Throw e)
  | BadBody e => lift (Throw e)
  | Json v => ret v
  end.

(** Sequencing of computations that only throw. *)
Definition cbind {A B} (c : Completion A) (k : A -> Completion B) : Completion B :=
  match c with
  | Normal a => k a
  | Throw e => Throw e
  end.

Notation "x <~ c ;; k" := (cbind c (fun x => k))
  (at level 61, c at next level, right associativity).

(* ------------------------------------------------------------------ *)
(** ** Status poller *)

Section Client.
Context `{Host}.

(** [obj.k.toFixed(f)] *)
Definition fixed_field (obj : JsVal) (k : string) (f : nat) : Completion string :=
  v <~ get_prop obj k ;;
  call_toFixed v f.

(** [createInverterCard(inverter, pvGen, index)] *)
Definition createInverterCard (inverter pvGen : JsVal) (index : nat)
  : Completion InverterCard :=
  is_on <~ get_prop inverter "is_on" ;;
  let cls := "inverter-card " ++ (if truthy is_on then "on" else "off") in
  monitoring <~ get_prop inverter "monitoring" ;;
  pvMonitoring <~ get_prop pvGen "monitoring" ;;
  id <~ get_prop inverter "id" ;;
  power_generation <~ fixed_field pvMonitoring "power_generation" 2 ;;
  voltage <~ fixed_field pvMonitoring "voltage" 1 ;;
  current <~ fixed_field pvMonitoring "current" 2 ;;
  active <~ fixed_field monitoring "active_power" 2 ;;
  out_voltage <~ fixed_field monitoring "output_voltage" 1 ;;
  out_current <~ fixed_field monitoring "output_current" 2 ;;
  pf <~ fixed_field monitoring "power_factor" 3 ;;
  eff <~ fixed_field monitoring "efficiency" 1 ;;
  control_mode <~ get_prop pvGen "control_mode" ;;
  p_control_percent <~ get_prop pvGen "p_control_percent" ;;
  Normal {| card_class := cls;
            card_title := to_string id;
            badge_class := if truthy is_on then "on" else "off";
            badge_text := if truthy is_on then "ON" else "OFF";
            pv_power := power_generation;
            pv_voltage := voltage;
            pv_current := current;
            active_power := active;
            output_voltage := out_voltage;
            output_current := out_current;
            power_factor := pf;
            efficiency := eff;
            card_index := digits (N.of_nat index);
            mppt_selected := if is_string control_mode "MPPT" then "selected" else "";
            p_control_selected :=
              if is_string control_mode "P_CONTROL" then "selected" else "";
            p_control_value := to_string p_control_percent |}.

Definition appendCard (card : InverterCard) : M Page unit :=
  modify (with_status (fun v => set_inverters_grid (inverters_grid v ++ [card])%list v)).

(** The callback of [inverters.forEach] in [updateInverterCards]. *)
Definition cardStep (pvGenerators : JsVal) (inverter : JsVal) (index : nat)
  : M Page unit :=
  pvGen <- lift (get_index pvGenerators index) ;;
  card <- lift (createInverterCard inverter pvGen index) ;;
  appendCard card.

(** [updateInverterCards(inverters, pvGenerators)] *)
Definition updateInverterCards (inverters pvGenerators : JsVal) : M Page unit :=
  modify (with_status (set_inverters_grid [])) ;;;
  match inverters with
  | JArr items => forEach (cardStep pvGenerators) items 0
  | _ => lift (Throw (TypeError inverters "forEach"))
  end.

(** [updateUI(data)], [now] being what [new Date()] reads. *)
Definition updateUI (now : number) (data : JsVal) : M Page unit :=
  pid <- lift (get_prop data "plant_id") ;;
  modify (with_status (set_plant_id ("발전소: " ++ to_string pid))) ;;;
  modify (with_status (set_update_time
            ("업데이트: " ++ toLocaleTimeString (JNum now)))) ;;;
  totalPower <- lift (get_prop data "total_power") ;;
  active <- lift (fixed_field totalPower "total_active_power_kw" 2) ;;
  modify (with_status (set_total_power active)) ;;;
  util <- lift (fixed_field totalPower "utilization_percent" 2) ;;
  modify (with_status (set_utilization util)) ;;;
  reactive <- lift (fixed_field totalPower "total_reactive_power_kvar" 2) ;;
  modify (with_status (set_reactive_power reactive)) ;;;
  capacity <- lift (fixed_field data "total_capacity_mva" 2) ;;
  modify (with_status (set_rated_capacity capacity)) ;;;
  inverters <- lift (get_prop data "inverters") ;;
  pv_generators <- lift (get_prop data "pv_generators") ;;
  updateInverterCards inverters pv_generators.

(** [updateStatus()] *)
Definition updateStatus (now : number) (reply : Reply) : M Page unit :=
  try_catch
    (data <- fetch_json "GET" "/api/status" None reply ;;
     updateUI now data)
    (fun error => console_error "상태 업데이트 오류:" error).

End Client.

(* ------------------------------------------------------------------ *)
(** ** Command dispatcher *)

(** The commands a user can dispatch, one per handler of the script. *)
Inductive Command :=
  | ControlInverter (index : nat) (action : string)
  | ControlAllInverters (action : string)
  | SetControlMode (index : nat)
  | SetControlModeAll
  | SetPControl (index : nat)
  | SetPControlAll
  | SetIrradiance
  | SetTemperature.

Section Commands.
Context `{Host}.

(** What the form controls of the page hold when a handler runs, by element
    id; [None] when [getElementById] finds no element. *)
Variable form : string -> option string.

(** What the out-of-band [updateStatus()] of a handler will see. *)
Variable refresh_now : number.
Variable refresh_reply : Reply.

(** [showMessage(message, type)] *)
Definition showMessage (message : JsVal) (type : string) : M Page unit :=
  console_log ("[" ++ toUpperCase type ++ "] " ++ to_string message).

(** [document.getElementById(id).value] *)
Definition element_value (id : string) : Completion string :=
  match form id with
  | Some v => Normal v
  | None => Throw (TypeError JNull "value")
  end.

(** The statements every handler runs on the parsed response:
    [if (result.success) { showMessage(result.message, 'success');
    updateStatus(); } else { showMessage(result.message, 'error'); }] *)
Definition reportResult (result : JsVal) : M Page unit :=
  success <- lift (get_prop result "success") ;;
  if truthy success then
    message <- lift (get_prop result "message") ;;
    showMessage message "success" ;;;
    updateStatus refresh_now refresh_reply
  else
    message <- lift (get_prop result "message") ;;
    showMessage message "error".

(** [showMessage(prefix + error.message, 'error')] *)
Definition reportError (prefix : string) (error : JsError) : M Page unit :=
  showMessage (JStr (prefix ++ err_message error)) "error".

(** [controlInverter(index, action)] *)
Definition controlInverter (index : nat) (action : string) (reply : Reply)
  : M Page unit :=
  try_catch
    (let endpoint := if String.eqb action "on" then "on" else "off" in
     result <- fetch_json "POST"
                 ("/api/inverter/" ++ digits (N.of_nat index) ++ "/" ++ endpoint)
                 None reply ;;
     reportResult result)
    (reportError "제어 오류: ").

(** [controlAllInverters(action)] *)
Definition controlAllInverters (action : string) (reply : Reply) : M Page unit :=
  try_catch
    (let endpoint := if String.eqb action "on" then "all/on" else "all/off" in
     result <- fetch_json "POST" ("/api/inverter/" ++ endpoint) None reply ;;
     reportResult result)
    (reportError "제어 오류: ").

(** [setControlMode(index)] *)
Definition setControlMode (index : nat) (reply : Reply) : M Page unit :=
  try_catch
    (mode <- lift (element_value ("control-mode-" ++ digits (N.of_nat index))) ;;
     result <- fetch_json "POST"
                 ("/api/inverter/" ++ digits (N.of_nat index) ++ "/control-mode")
                 (Some (JObj [("mode", JStr mode)])) reply ;;
     reportResult result)
    (reportError "제어 모드 설정 오류: ").

(** [setControlModeAll()] *)
Definition setControlModeAll (reply : Reply) : M Page unit :=
  try_catch
    (mode <- lift (element_value "control-mode-all") ;;
     result <- fetch_json "POST" "/api/inverter/all/control-mode"
                 (Some (JObj [("mode", JStr mode)])) reply ;;
     reportResult result)
    (reportError "제어 모드 설정 오류: ").

(** [setPControl(index)] *)
Definition setPControl (index : nat) (reply : Reply) : M Page unit :=
  try_catch
    (value <- lift (element_value ("p-control-" ++ digits (N.of_nat index))) ;;
     let percent := parseFloat value in
     result <- fetch_json "POST"
                 ("/api/inverter/" ++ digits (N.of_nat index) ++ "/p-control")
                 (Some (JObj [("percent", JNum percent)])) reply ;;
     reportResult result)
    (reportError "P 제어 설정 오류: ").

(** [setPControlAll()] *)
Definition setPControlAll (reply : Reply) : M Page unit :=
  try_catch
    (value <- lift (element_value "p-control-all") ;;
     let percent := parseFloat value in
     result <- fetch_json "POST" "/api/inverter/all/p-control"
                 (Some (JObj [("percent", JNum percent)])) reply ;;
     reportResult result)
    (reportError "P 제어 설정 오류: ").

(** [setIrradiance()] *)
Definition setIrradiance (reply : Reply) : M Page unit :=
  try_catch
    (value <- lift (element_value "irradiance") ;;
     let irradiance := parseFloat value in
     result <- fetch_json "POST" "/api/environment/irradiance"
                 (Some (JObj [("irradiance", JNum irradiance)])) reply ;;
     reportResult result)
    (reportError "일사량 설정 오류: ").

(** [setTemperature()] *)
Definition setTemperature (reply : Reply) : M Page unit :=
  try_catch
    (value <- lift (element_value "temperature") ;;
     let temperature := parseFloat value in
     result <- fetch_json "POST" "/api/environment/temperature"
                 (Some (JObj [("temperature", JNum temperature)])) reply ;;
     reportResult result)
    (reportError "온도 설정 오류: ").

(** The handler a command runs. *)
Definition dispatch (c : Command) (reply : Reply) : M Page unit :=
  match c with
  | ControlInverter index action => controlInverter index action reply
  | ControlAllInverters action => controlAllInverters action reply
  | SetControlMode index => setControlMode index reply
  | SetControlModeAll => setControlModeAll reply
  | SetPControl index => setPControl index reply
  | SetPControlAll => setPControlAll reply
  | SetIrradiance => setIrradiance reply
  | SetTemperature => setTemperature reply
  end.

(** The prefix of the notification a handler shows for a caught error. *)
Definition error_prefix (c : Command) : string :=
  match c with
  | ControlInverter _ _ | ControlAllInverters _ => "제어 오류: "
  | SetControlMode _ | SetControlModeAll => "제어 모드 설정 오류: "
  | SetPControl _ | SetPControlAll => "P 제어 설정 오류: "
  | SetIrradiance => "일사량 설정 오류: "
  | SetTemperature => "온도 설정 오류: "
  end.

(** The form control a handler reads before it sends its request. *)
Definition form_input (c : Command) : option string :=
  match c with
  | ControlInverter _ _ | ControlAllInverters _ => None
  | SetControlMode index => Some ("control-mode-" ++ digits (N.of_nat index))
  | SetControlModeAll => Some "control-mode-all"
  | SetPControl index => Some ("p-control-" ++ digits (N.of_nat index))
  | SetPControlAll => Some "p-control-all"
  | SetIrradiance => Some "irradiance"
  | SetTemperature => Some "temperature"
  end.

(** The handler gets as far as sending its request. *)
Definition request_sent (c : Command) : bool :=
  match form_input c with
  | None => true
  | Some id => match form id with Some _ => true | None => false end
  end.

End Commands.

(** The notifications shown so far, and the Status fetches issued so far. *)
Definition notifications (p : Page) : list string :=
  flat_map (fun l => match l with ConsoleLog t => [t] | ConsoleError _ _ => [] end)
           (console p).

Definition status_fetches (p : Page) : nat :=
  List.length (filter (fun r => String.eqb (req_url r) "/api/status") (requests p)).

(* ------------------------------------------------------------------ *)
(** ** Chart and history poller *)

Section History.
Context `{Host}.

(** [v.map(f)]: only an array has the method. *)
Definition js_map {B} (f : JsVal -> Completion B) (v : JsVal) : Completion (list B) :=
  match v with
  | JArr items => map_items f items
  | _ => Throw (TypeError v "map")
  end.

(** [item => new Date(item.timestamp * 1000).toLocaleTimeString('ko-KR', ...)] *)
Definition chartLabel (item : JsVal) : Completion string :=
  timestamp <~ get_prop item "timestamp" ;;
  Normal (toLocaleTimeString_ko (num_mul (to_number timestamp) (num_of_Z 1000))).

(** [updateChart()] *)
Definition updateChart (reply : Reply) : M Page unit :=
  try_catch
    (result <- fetch_json "GET" "/api/timeseries" None reply ;;
     data <- lift (get_prop result "data") ;;
     if has_items data then
       new_labels <- lift (js_map chartLabel data) ;;
       new_data <- lift (js_map (fun item => get_prop item "power_kw") data) ;;
       chart <- gets powerChart ;;
       match chart with
       | None => lift (Throw (TypeError JNull "data"))
       | Some c =>
           modify (with_chart (fun _ =>
             Some {| labels := new_labels; dataset := new_data;
                     updates := (updates c ++ ["none"])%list |}))
       end
     else ret tt)
    (fun error => console_error "차트 업데이트 오류:" error).

(** [items.slice(-n)] *)
Definition slice_last {A} (n : nat) (items : list A) : list A :=
  skipn (List.length items - n) items.

(** The callback of [recentData.forEach] in [updateHourlyData]. *)
Definition hourlyStep (item : JsVal) (_ : nat) : M Page unit :=
  hour <- lift (get_prop item "hour") ;;
  kwh <- lift (fixed_field item "accumulated_kwh" 2) ;;
  modify (with_hourly (fun l => l ++ [HourlyItem (to_string hour) kwh])%list).

Definition no_data_text : string := "데이터가 없습니다.".

(** [updateHourlyData()] *)
Definition updateHourlyData (reply : Reply) : M Page unit :=
  try_catch
    (result <- fetch_json "GET" "/api/hourly" None reply ;;
     modify (with_hourly (fun _ => [])) ;;;
     hourly_data <- lift (get_prop result "hourly_data") ;;
     if has_items hourly_data then
       match hourly_data with
       | JArr items => forEach hourlyStep (slice_last 24 items) 0
       | JStr _ => lift (Throw (TypeError hourly_data "forEach"))
       | _ => lift (Throw (TypeError hourly_data "slice"))
       end
     else modify (with_hourly (fun _ => [HourlyNotice no_data_text])))
    (fun error => console_error "시간별 데이터 업데이트 오류:" error).

End History.

(* ------------------------------------------------------------------ *)
(** ** Modbus health poller and alert banner *)

Definition set_status_text (s : string) (v : ModbusView) : ModbusView :=
  {| modbus_status := {| textContent := s;
                         className := className (modbus_status v);
                         title := title (modbus_status v) |};
     modbus_port := modbus_port v; modbus_baudrate := modbus_baudrate v;
     modbus_slaves := modbus_slaves v;
     modbus_slaves_grid := modbus_slaves_grid v; modbus_log := modbus_log v |}.

Definition set_status_class (s : string) (v : ModbusView) : ModbusView :=
  {| modbus_status := {| textContent := textContent (modbus_status v);
                         className := s;
                         title := title (modbus_status v) |};
     modbus_port := modbus_port v; modbus_baudrate := modbus_baudrate v;
     modbus_slaves := modbus_slaves v;
     modbus_slaves_grid := modbus_slaves_grid v; modbus_log := modbus_log v |}.

Definition set_status_title (s : string) (v : ModbusView) : ModbusView :=
  {| modbus_status := {| textContent := textContent (modbus_status v);
                         className := className (modbus_status v);
                         title := s |};
     modbus_port := modbus_port v; modbus_baudrate := modbus_baudrate v;
     modbus_slaves := modbus_slaves v;
     modbus_slaves_grid := modbus_slaves_grid v; modbus_log := modbus_log v |}.

Definition set_port (s : string) (v : ModbusView) : ModbusView :=
  {| modbus_status := modbus_status v; modbus_port := s;
     modbus_baudrate := modbus_baudrate v; modbus_slaves := modbus_slaves v;
     modbus_slaves_grid := modbus_slaves_grid v; modbus_log := modbus_log v |}.

Definition set_baudrate (s : string) (v : ModbusView) : ModbusView :=
  {| modbus_status := modbus_status v; modbus_port := modbus_port v;
     modbus_baudrate := s; modbus_slaves := modbus_slaves v;
     modbus_slaves_grid := modbus_slaves_grid v; modbus_log := modbus_log v |}.

Definition set_slaves (s : string) (v : ModbusView) : ModbusView :=
  {| modbus_status := modbus_status v; modbus_port := modbus_port v;
     modbus_baudrate := modbus_baudrate v; modbus_slaves := s;
     modbus_slaves_grid := modbus_slaves_grid v; modbus_log := modbus_log v |}.

Definition set_slaves_grid (g : list SlaveCard) (v : ModbusView) : ModbusView :=
  {| modbus_status := modbus_status v; modbus_port := modbus_port v;
     modbus_baudrate := modbus_baudrate v; modbus_slaves := modbus_slaves v;
     modbus_slaves_grid := g; modbus_log := modbus_log v |}.

Definition set_log (l : list LogChild) (v : ModbusView) : ModbusView :=
  {| modbus_status := modbus_status v; modbus_port := modbus_port v;
     modbus_baudrate := modbus_baudrate v; modbus_slaves := modbus_slaves v;
     modbus_slaves_grid := modbus_slaves_grid v; modbus_log := l |}.

Definition alert_class : string := "modbus-alert".

Definition is_banner (n : Node) : bool := String.eqb (node_class n) alert_class.

(** [element.remove()]: the element leaves its parent, if it has one. *)
Definition remove_node (n : Node) (children : option (list Node))
  : option (list Node) :=
  option_map (filter (fun c => negb (Nat.eqb (node_id c) (node_id n)))) children.

(** [hideModbusAlert()] *)
Definition hideModbusAlert (a : Alert) : Alert :=
  match modbusAlertElement a with
  | Some old =>
      {| modbus_section := remove_node old (modbus_section a);
         modbusAlertElement := None;
         next_node := next_node a |}
  | None => a
  end.

(** The banners in the document. *)
Definition banners (a : Alert) : list Node :=
  match modbus_section a with
  | Some children => filter is_banner children
  | None => []
  end.

Section Modbus.
Context `{Host}.

(** [showModbusAlert(message)] *)
Definition showModbusAlert (message : JsVal) (a : Alert) : Alert :=
  let children :=
    match modbusAlertElement a with
    | Some old => remove_node old (modbus_section a)
    | None => modbus_section a
    end in
  let element := {| node_id := next_node a;
                    node_class := alert_class;
                    node_message := to_string message |} in
  {| modbus_section := option_map (cons element) children;
     modbusAlertElement := Some element;
     next_node := S (next_node a) |}.

(** [stat.k || 0], printed into the card. *)
Definition stat_count (stat : JsVal) (k : string) : Completion string :=
  v <~ get_prop stat k ;;
  Normal (to_string (js_or v (JNum num_zero))).

(** The card [updateSlaveStats] builds for one entry. *)
Definition slaveCard (slaveId : string) (stat : JsVal) : Completion SlaveCard :=
  total_req <~ stat_count stat "total_requests" ;;
  total_resp <~ stat_count stat "total_responses" ;;
  read_req <~ stat_count stat "read_requests" ;;
  write_req <~ stat_count stat "write_requests" ;;
  errors <~ stat_count stat "error_count" ;;
  last <~ get_prop stat "last_request_time" ;;
  Normal {| slave_id_text := slaveId;
            total_requests := total_req;
            total_responses := total_resp;
            read_requests := read_req;
            write_requests := write_req;
            error_count := errors;
            last_request := if truthy last then toLocaleTimeString last else "-" |}.

(** [updateSlaveStats(stats)] *)
Definition updateSlaveStats (stats : JsVal) : M Page unit :=
  modify (with_modbus (set_slaves_grid [])) ;;;
  forEach (fun (entry : string * JsVal) (_ : nat) =>
             card <- lift (slaveCard (fst entry) (snd entry)) ;;
             modify (with_modbus (fun v =>
               set_slaves_grid (modbus_slaves_grid v ++ [card])%list v)))
          (object_entries stats) 0.

Definition set_indicator (text cls : string) : M Page unit :=
  modify (with_modbus (set_status_text text)) ;;;
  modify (with_modbus (set_status_class cls)).

Definition set_title (v : JsVal) : M Page unit :=
  modify (with_modbus (set_status_title (to_string v))).

Definition query_error_text : string := "Modbus 상태 조회 중 오류가 발생했습니다.".

(** [updateModbusStatus()] *)
Definition updateModbusStatus (reply : Reply) : M Page unit :=
  try_catch
    (data <- fetch_json "GET" "/api/modbus/status" None reply ;;
     available <- lift (get_prop data "available") ;;
     if truthy available then
       status <- lift (get_prop data "status") ;;
       port <- lift (get_prop status "port") ;;
       modify (with_modbus (set_port (to_string (js_or port (JStr "-"))))) ;;;
       baudrate <- lift (get_prop status "baudrate") ;;
       modify (with_modbus (set_baudrate (to_string (js_or baudrate (JStr "-"))))) ;;;
       num_slaves <- lift (get_prop status "num_slaves") ;;
       modify (with_modbus
                 (set_slaves (to_string (js_or num_slaves (JNum num_zero))))) ;;;
       actually_connected <- lift (get_prop data "actually_connected") ;;
       (if negb (truthy actually_connected) then
          port_available <- lift (get_prop data "port_available") ;;
          if negb (truthy port_available) then
            set_indicator "포트 없음" "status-indicator error" ;;;
            port_error <- lift (get_prop data "port_error") ;;
            set_title (js_or port_error
                         (JStr "시리얼 포트가 연결되어 있지 않습니다.")) ;;;
            modify (with_alert (showModbusAlert
              (JStr ("포트 연결 실패: " ++
                     to_string (js_or port_error
                                  (JStr "시리얼 포트를 찾을 수 없습니다."))))))
          else
            server_running <- lift (get_prop data "server_running") ;;
            if negb (truthy server_running) then
              set_indicator "서버 중지" "status-indicator stopped" ;;;
              set_title (JStr "Modbus 서버가 실행되지 않았습니다.") ;;;
              modify (with_alert (showModbusAlert
                (JStr "Modbus RTU 서버가 실행되지 않았습니다.")))
            else
              set_indicator "연결 안됨" "status-indicator error" ;;;
              warning <- lift (get_prop data "warning") ;;
              set_title (js_or warning (JStr "RTU와 통신할 수 없습니다.")) ;;;
              modify (with_alert (showModbusAlert
                (js_or warning (JStr "RTU와 통신할 수 없습니다."))))
        else
          is_running <- lift (get_prop status "is_running") ;;
          port_available <- lift (get_prop data "port_available") ;;
          if truthy is_running && truthy port_available then
            set_indicator "실행 중" "status-indicator running" ;;;
            modify (with_alert hideModbusAlert)
          else
            set_indicator "중지됨" "status-indicator stopped" ;;;
            modify (with_alert hideModbusAlert)) ;;;
       stats <- lift (get_prop status "communication_stats") ;;
       updateSlaveStats (js_or stats (JObj []))
     else
       modify (with_modbus (set_port "-")) ;;;
       modify (with_modbus (set_baudrate "-")) ;;;
       modify (with_modbus (set_slaves "0")) ;;;
       set_indicator "초기화 실패" "status-indicator error" ;;;
       error_detail <- lift (get_prop data "error_detail") ;;
       message <- lift (get_prop data "message") ;;
       set_title (js_or error_detail message) ;;;
       modify (with_alert (showModbusAlert
         (js_or (js_or error_detail message)
                (JStr "Modbus RTU Manager 초기화 실패")))))
    (fun error =>
       console_error "Modbus 상태 업데이트 오류:" error ;;;
       modify (with_alert (showModbusAlert (JStr query_error_text)))).

End Modbus.

(* ------------------------------------------------------------------ *)
(** ** Modbus communication log *)

Section Log.
Context `{Host}.

(** [v.join(sep)]: only an array has the method. *)
Definition call_join (v : JsVal) (sep : string) : Completion string :=
  match v with
  | JArr items => Normal (array_join sep items)
  | _ => Throw (TypeError v "join")
  end.

(** The [detail] string [updateModbusLog] builds for one record. *)
Definition logDetail (log : JsVal) : Completion string :=
  let detail := "" in
  address <~ get_prop log "address" ;;
  let detail :=
    if not_nullish address then detail ++ "주소: " ++ to_string address
    else detail in
  quantity <~ get_prop log "quantity" ;;
  let detail :=
    if truthy quantity then detail ++ ", 수량: " ++ to_string quantity
    else detail in
  values <~ get_prop log "values" ;;
  detail <~ (if has_items values then
               joined <~ call_join values ", " ;;
               Normal (detail ++ ", 값: [" ++ joined ++ "]")
             else Normal detail) ;;
  error <~ get_prop log "error" ;;
  let detail :=
    if truthy error then detail ++ ", 오류: " ++ to_string error
    else detail in
  Normal detail.

(** The entry [updateModbusLog] builds for one record. *)
Definition logEntry (log : JsVal) : Completion LogEntryView :=
  event_type <~ get_prop log "event_type" ;;
  let cls := "log-entry " ++ to_string event_type in
  function_name <~ get_prop log "function_name" ;;
  function_code <~ get_prop log "function_code" ;;
  let functionName :=
    js_or function_name (JStr ("Function " ++ to_string function_code)) in
  timestamp <~ get_prop log "timestamp" ;;
  let time := toLocaleTimeString timestamp in
  detail <~ logDetail log ;;
  event_upper <~ call_toUpperCase event_type ;;
  slave_id <~ get_prop log "slave_id" ;;
  success <~ get_prop log "success" ;;
  Normal {| entry_class := cls;
            log_time := time;
            log_event := event_upper;
            log_slave := to_string slave_id;
            log_function := to_string functionName;
            log_mark := if truthy success then "✓" else "✗";
            log_detail := if String.eqb detail "" then None else Some detail |}.

Definition logStep (log : JsVal) (_ : nat) : M Page unit :=
  entry <- lift (logEntry log) ;;
  modify (with_modbus (fun v => set_log (modbus_log v ++ [LogItem entry])%list v)).

Definition no_logs_text : string := "통신 로그가 없습니다.".

(** [updateModbusLog()] *)
Definition updateModbusLog (reply : Reply) : M Page unit :=
  try_catch
    (data <- fetch_json "GET" "/api/modbus/log?limit=20" None reply ;;
     modify (with_modbus (set_log [])) ;;;
     logs <- lift (get_prop data "logs") ;;
     if has_items logs then
       match logs with
       | JArr items => forEach logStep (rev items) 0
       | _ => lift (Throw (TypeError logs "reverse"))
       end
     else modify (with_modbus (set_log [LogNotice no_logs_text])))
    (fun error => console_error "Modbus 로그 업데이트 오류:" error).

End Log.

(* ------------------------------------------------------------------ *)
(** ** Well-formed payloads (the data model of the specification) *)

Definition is_num (v : JsVal) : bool :=
  match v with
  | JNum _ => true
  | _ => false
  end.

Definition num_of (v : JsVal) : number :=
  match v with
  | JNum x => x
  | _ => num_nan
  end.

Definition items_of (v : JsVal) : list JsVal :=
  match v with
  | JArr items => items
  | _ => []
  end.

Definition is_array (v : JsVal) : bool :=
  match v with
  | JArr _ => true
  | _ => false
  end.

(** Every key of [keys] holds a number in [v]. *)
Definition has_numbers (v : JsVal) (keys : list string) : bool :=
  forallb (fun k => is_num (member v k)) keys.

(** InverterState: an object whose [monitoring] holds the five readings. *)
Definition wf_inverter (v : JsVal) : bool :=
  not_nullish v &&
  has_numbers (member v "monitoring")
    ["active_power"; "output_voltage"; "output_current"; "power_factor";
     "efficiency"].

(** PvState: an object whose [monitoring] holds the three readings. *)
Definition wf_pv (v : JsVal) : bool :=
  not_nullish v &&
  has_numbers (member v "monitoring") ["power_generation"; "voltage"; "current"].

(** PlantSnapshot, with the positional correspondence of its two arrays. *)
Definition wf_snapshot (data : JsVal) : bool :=
  not_nullish data &&
  has_numbers (member data "total_power")
    ["total_active_power_kw"; "utilization_percent"; "total_reactive_power_kvar"] &&
  is_num (member data "total_capacity_mva") &&
  is_array (member data "inverters") &&
  is_array (member data "pv_generators") &&
  forallb wf_inverter (items_of (member data "inverters")) &&
  forallb wf_pv (items_of (member data "pv_generators")) &&
  Nat.eqb (List.length (items_of (member data "inverters")))
          (List.length (items_of (member data "pv_generators"))).

(** HourlyRecord *)
Definition wf_hourly (v : JsVal) : bool :=
  not_nullish v && is_num (member v "accumulated_kwh").


(** The double nearest to 123.456. *)
Definition num_123_456 : number := S754_finite false 8687443681197687 (-46).

(* ------------------------------------------------------------------ *)
(** ** The decision tree of the health rendering, as the specification
    words it (section 4.3): first match wins. *)

Inductive Branch :=
  | InitFailed
  | NoPort
  | ServerStopped
  | NotConnected
  | Running
  | Stopped.

Definition health_branch
  (available actually_connected port_available server_running is_running : bool)
  : Branch :=
  if negb available then InitFailed
  else if negb actually_connected then
    if negb port_available then NoPort
    else if negb server_running then ServerStopped
    else NotConnected
  else if is_running && port_available then Running
  else Stopped.

Definition branch_text (b : Branch) : string :=
  match b with
  | InitFailed => "초기화 실패"
  | NoPort => "포트 없음"
  | ServerStopped => "서버 중지"
  | NotConnected => "연결 안됨"
  | Running => "실행 중"
  | Stopped => "중지됨"
  end.

Definition branch_class (b : Branch) : string :=
  match b with
  | InitFailed | NoPort | NotConnected => "status-indicator error"
  | ServerStopped | Stopped => "status-indicator stopped"
  | Running => "status-indicator running"
  end.

(** The branch a health payload selects, from the truth of its five fields. *)
Definition branch_of (data : JsVal) : Branch :=
  health_branch
    (truthy (member data "available"))
    (truthy (member data "actually_connected"))
    (truthy (member data "port_available"))
    (truthy (member data "server_running"))
    (truthy (member (member data "status") "is_running")).

(** What a branch does to the alert banner: [Some message] shows it with
    that message, [None] hides it. *)
Definition branch_alert `{Host} (b : Branch) (data : JsVal) : option JsVal :=
  match b with
  | InitFailed =>
      Some (js_or (js_or (member data "error_detail") (member data "message"))
                  (JStr "Modbus RTU Manager 초기화 실패"))
  | NoPort =>
      Some (JStr ("포트 연결 실패: " ++
                  to_string (js_or (member data "port_error")
                                   (JStr "시리얼 포트를 찾을 수 없습니다."))))
  | ServerStopped => Some (JStr "Modbus RTU 서버가 실행되지 않았습니다.")
  | NotConnected =>
      Some (js_or (member data "warning") (JStr "RTU와 통신할 수 없습니다."))
  | Running | Stopped => None
  end.

Definition apply_alert `{Host} (action : option JsVal) (a : Alert) : Alert :=
  match action with
  | Some message => showModbusAlert message a
  | None => hideModbusAlert a
  end.

(** Operations on the alert banner, and the states a sequence of them visits. *)
Inductive AlertOp :=
  | Show (message : JsVal)
  | Hide.

Definition run_op `{Host} (op : AlertOp) (a : Alert) : Alert :=
  match op with
  | Show message => showModbusAlert message a
  | Hide => hideModbusAlert a
  end.

Fixpoint visited `{Host} (ops : list AlertOp) (a : Alert) : list Alert :=
  match ops with
  | [] => []
  | op :: rest => run_op op a :: visited rest (run_op op a)
  end.

(** Every banner of the document is the one the slot owns. *)
Definition alert_inv (a : Alert) : Prop :=
  match banners a with
  | [] => True
  | [n] => modbusAlertElement a = Some n
  | _ => False
  end.

(* ------------------------------------------------------------------ *)
(** ** The detail line of a log entry, as the specification words it: the
    fields that are present, in the fixed order, joined by a comma and a
    space.  A field is present when the script's own test of it holds. *)

Definition detail_fields `{Host} (log : JsVal) : list string :=
  List.concat
    [ if not_nullish (member log "address")
      then ["주소: " ++ to_string (member log "address")] else [];
      if truthy (member log "quantity")
      then ["수량: " ++ to_string (member log "quantity")] else [];
      if has_items (member log "values")
      then ["값: [" ++ array_join ", " (items_of (member log "values")) ++ "]"]
      else [];
      if truthy (member log "error")
      then ["오류: " ++ to_string (member log "error")] else [] ].

Definition spec_detail `{Host} (log : JsVal) : option string :=
  match detail_fields log with
  | [] => None
  | fields => Some (join ", " fields)
  end.

(* ------------------------------------------------------------------ *)
(** ** A host and a page to run the model on *)

(** Prints an integer as JavaScript does, another finite number with six
    decimals. *)
Definition sample_number_to_string (x : number) : string :=
  match x with
  | S754_nan => "NaN"
  | S754_infinity s => if s then "-Infinity" else "Infinity"
  | S754_zero _ => "0"
  | S754_finite s m e =>
      (if s then "-" else "") ++
      match e with
      | Zneg p =>
          if (Zpos m mod 2 ^ Zpos p =? 0)%Z
          then digits (Z.to_N (Zpos m / 2 ^ Zpos p))
          else fixed_digits (fixed_integer m e 6) 6
      | _ => digits (Z.to_N (Zpos m * 2 ^ e))
      end
  end.

(** Reads a string of decimal digits. *)
Definition sample_parse (s : string) : number :=
  match NilZero.uint_of_string s with
  | Some u => num_of_Z (Z.of_N (N.of_uint u))
  | None => num_nan
  end.

Definition sample_host : Host :=
  {| number_to_string := sample_number_to_string;
     string_to_number := sample_parse;
     parseFloat := sample_parse;
     toLocaleTimeString := fun v =>
       match v with
       | JNum x => "t" ++ sample_number_to_string x
       | JStr s => s
       | _ => "Invalid Date"
       end;
     toLocaleTimeString_ko := fun x => "t" ++ sample_number_to_string x;
     type_error_message := fun _ k => "Cannot read properties (reading '" ++ k ++ "')" |}.

Definition blank_status : StatusView :=
  {| plant_id := "발전소: -"; update_time := ""; total_power := "0.00";
     utilization := "0.00"; reactive_power := "0.00"; rated_capacity := "0.00";
     inverters_grid := [] |}.

Definition blank_modbus : ModbusView :=
  {| modbus_status := {| textContent := "확인 중"; className := "status-indicator";
                         title := "" |};
     modbus_port := "-"; modbus_baudrate := "-"; modbus_slaves := "0";
     modbus_slaves_grid := []; modbus_log := [] |}.

(** The Modbus section of a freshly loaded page: a heading, no banner. *)
Definition blank_alert : Alert :=
  {| modbus_section :=
       Some [{| node_id := 0; node_class := "section-title";
                node_message := "Modbus RTU" |}];
     modbusAlertElement := None;
     next_node := 1 |}.

Definition blank_page : Page :=
  {| status := blank_status;
     powerChart := Some {| labels := []; dataset := []; updates := [] |};
     hourly_list := [];
     modbus := blank_modbus;
     alert := blank_alert;
     console := [];
     requests := [] |}.

Definition num (z : Z) : JsVal := JNum (num_of_Z z).

Definition sample_inverter (name : string) (on : bool) : JsVal :=
  JObj [("id", JStr name); ("is_on", JBool on);
        ("monitoring",
         JObj [("active_power", num 50); ("output_voltage", num 380);
               ("output_current", num 76); ("power_factor", num 1);
               ("efficiency", num 97)])].

Definition sample_pv (mode : string) : JsVal :=
  JObj [("control_mode", JStr mode); ("p_control_percent", num 100);
        ("monitoring",
         JObj [("power_generation", num 52); ("voltage", num 600);
               ("current", num 87)])].

Definition sample_snapshot : JsVal :=
  JObj [("plant_id", JStr "PLANT_001");
        ("total_power",
         JObj [("total_active_power_kw", JNum num_123_456);
               ("utilization_percent", num 41);
               ("total_reactive_power_kvar", num 0)]);
        ("total_capacity_mva", num 3);
        ("inverters", JArr [sample_inverter "INV_001" true;
                            sample_inverter "INV_002" false]);
        ("pv_generators", JArr [sample_pv "MPPT"; sample_pv "P_CONTROL"])].

(** A parsed body that is not a snapshot: the error payload of a server. *)
Definition error_payload : JsVal :=
  JObj [("success", JBool false); ("message", JStr "simulator not ready")].

Definition sample_error : JsError := mkError "TypeError" "Failed to fetch".

Definition hourly_record (h : nat) : JsVal :=
  JObj [("hour", JStr (digits (N.of_nat h) ++ ":00"));
        ("accumulated_kwh", num (Z.of_nat h))].

(** Thirty hourly records, numbered 1 to 30. *)
Definition thirty_hours : list JsVal := map hourly_record (seq 1 30).


(** A log record without an address: a response that carries two values. *)
Definition log_without_address : JsVal :=
  JObj [("event_type", JStr "response"); ("slave_id", num 1);
        ("function_code", num 3); ("address", JNull); ("quantity", num 2);
        ("success", JBool true); ("timestamp", num 1700000000000)].

Definition log_with_address : JsVal :=
  JObj [("event_type", JStr "request"); ("slave_id", num 1);
        ("function_code", num 3); ("function_name", JStr "Read Holding Registers");
        ("address", num 0); ("quantity", num 2);
        ("values", JArr [num 10; num 20]);
        ("success", JBool true); ("timestamp", num 1700000000000)].

(** The form of a page whose first card holds 50 in its setpoint input. *)
Definition sample_form (id : string) : option string :=
  if String.eqb id "p-control-0" then Some "50" else None.

Definition sample_result : JsVal :=
  JObj [("success", JBool true); ("message", JStr "P control set")].

Definition sample_points : list JsVal :=
  [JObj [("timestamp", num 1700000000); ("power_kw", num 120)];
   JObj [("timestamp", num 1700000002); ("power_kw", num 121)]].

(* ------------------------------------------------------------------ *)
(** ** What the renders are expected to show *)

Section Expected.
Context `{Host}.

(** The reading [k] of [obj], printed with [f] decimals. *)
Definition reading (obj : JsVal) (k : string) (f : nat) : string :=
  toFixed (num_of (member obj k)) f.

(** The card of inverter [index]: every field comes from [inverter] or from
    [pvGen], each reading with the number of decimals of its template hole. *)
Definition expected_card (inverter pvGen : JsVal) (index : nat) : InverterCard :=
  let on := truthy (member inverter "is_on") in
  let monitoring := member inverter "monitoring" in
  let pvMonitoring := member pvGen "monitoring" in
  {| card_class := "inverter-card " ++ (if on then "on" else "off");
     card_title := to_string (member inverter "id");
     badge_class := if on then "on" else "off";
     badge_text := if on then "ON" else "OFF";
     pv_power := reading pvMonitoring "power_generation" 2;
     pv_voltage := reading pvMonitoring "voltage" 1;
     pv_current := reading pvMonitoring "current" 2;
     active_power := reading monitoring "active_power" 2;
     output_voltage := reading monitoring "output_voltage" 1;
     output_current := reading monitoring "output_current" 2;
     power_factor := reading monitoring "power_factor" 3;
     efficiency := reading monitoring "efficiency" 1;
     card_index := digits (N.of_nat index);
     mppt_selected :=
       if is_string (member pvGen "control_mode") "MPPT" then "selected" else "";
     p_control_selected :=
       if is_string (member pvGen "control_mode") "P_CONTROL" then "selected" else "";
     p_control_value := to_string (member pvGen "p_control_percent") |}.

(** The cards of the inverters paired by position with the generators, the
    first pair being number [i]. *)
Fixpoint cards_from (i : nat) (inverters pvGenerators : list JsVal)
  : list InverterCard :=
  match inverters, pvGenerators with
  | inverter :: inverters', pvGen :: pvGenerators' =>
      expected_card inverter pvGen i :: cards_from (S i) inverters' pvGenerators'
  | _, _ => []
  end.

(** The row of one hourly record. *)
Definition hourly_row (item : JsVal) : HourlyChild :=
  HourlyItem (to_string (member item "hour")) (reading item "accumulated_kwh" 2).

(** The element [showModbusAlert] creates. *)
Definition new_banner (message : JsVal) (a : Alert) : Node :=
  {| node_id := next_node a; node_class := alert_class;
     node_message := to_string message |}.

(** The label of one time-series point. *)
Definition point_label (item : JsVal) : string :=
  toLocaleTimeString_ko
    (num_mul (to_number (member item "timestamp")) (num_of_Z 1000)).

End Expected.

(** A Status poll that failed, as the specification words it: a network
    error or a non-success payload. *)
Definition poll_failed (reply : Reply) : bool :=
  match reply with
  | NetworkError _ | BadBody _ => true
  | Json v => negb (wf_snapshot v)
  end.

(** Two pages that differ at most in what the Status poller renders. *)
Definition same_outside_status (p p' : Page) : Prop :=
  powerChart p' = powerChart p /\ hourly_list p' = hourly_list p /\
  modbus p' = modbus p /\ alert p' = alert p /\
  console p' = console p /\ requests p' = requests p.

(** A computation that writes nothing but the Status region. *)
Definition status_only {A} (c : M Page A) : Prop :=
  forall p, same_outside_status p (snd (c p)).

(* ------------------------------------------------------------------ *)
(** ** Timers, start-up and the clear button *)

(** What an interval runs when it fires. *)
Inductive Task :=
  | StatusTask
  | ChartTask
  | ModbusTask.

Record Timer := {
  timer_id : nat;
  timer_task : Task;
  timer_ms : nat
}.

(** The intervals of the window: the two module-level handles
    [updateInterval] and [chartInterval] ([None] is [null]), the intervals
    that are running and the handle the next [setInterval] returns. *)
Record Timers := {
  updateInterval : option nat;
  chartInterval : option nat;
  active : list Timer;
  next_timer : nat
}.

Definition UPDATE_INTERVAL_MS : nat := 1000.
Definition CHART_UPDATE_INTERVAL_MS : nat := 2000.

(** [setInterval(task, ms)]: the handle and the timers after the call. *)
Definition setInterval (task : Task) (ms : nat) (t : Timers) : nat * Timers :=
  (next_timer t,
   {| updateInterval := updateInterval t;
      chartInterval := chartInterval t;
      active := active t ++ [{| timer_id := next_timer t; timer_task := task;
                                timer_ms := ms |}];
      next_timer := S (next_timer t) |})%list.

(** [clearInterval(id)] *)
Definition clearInterval (id : nat) (t : Timers) : Timers :=
  {| updateInterval := updateInterval t;
     chartInterval := chartInterval t;
     active := filter (fun tm => negb (Nat.eqb (timer_id tm) id)) (active t);
     next_timer := next_timer t |}.

(** [startAutoUpdate()]: [if (updateInterval)] holds for a handle that is
    neither [null] nor 0. *)
Definition startAutoUpdate (t : Timers) : Timers :=
  let t1 := match updateInterval t with
            | Some (S k) => clearInterval (S k) t
            | _ => t
            end in
  let (id, t2) := setInterval StatusTask UPDATE_INTERVAL_MS t1 in
  {| updateInterval := Some id;
     chartInterval := chartInterval t2;
     active := active t2;
     next_timer := next_timer t2 |}.

(** The timer part of [startChartUpdate()]. *)
Definition restartChartInterval (t : Timers) : Timers :=
  let t1 := match chartInterval t with
            | Some (S k) => clearInterval (S k) t
            | _ => t
            end in
  let (id, t2) := setInterval ChartTask CHART_UPDATE_INTERVAL_MS t1 in
  {| updateInterval := updateInterval t2;
     chartInterval := Some id;
     active := active t2;
     next_timer := next_timer t2 |}.

(** The script in its window: the page, the timers and the click listeners
    it has registered, by element id. *)
Record Client := {
  page : Page;
  timers : Timers;
  listeners : list (string * Command)
}.

Definition with_page (f : Page -> Page) (c : Client) : Client :=
  {| page := f (page c); timers := timers c; listeners := listeners c |}.

Definition with_timers (f : Timers -> Timers) (c : Client) : Client :=
  {| page := page c; timers := f (timers c); listeners := listeners c |}.

Definition with_listeners
  (f : list (string * Command) -> list (string * Command)) (c : Client) : Client :=
  {| page := page c; timers := timers c; listeners := f (listeners c) |}.

(** A computation on the page, run in the window.  Calls that the script
    starts without awaiting them are run one after the other, each to its
    end: the order in which their requests are issued is the order of the
    script, the order in which the answers arrive is not modelled. *)
Definition on_page {A} (m : M Page A) : M Client A :=
  fun c => let (r, p') := m (page c) in (r, with_page (fun _ => p') c).

Definition cleared_text : string := "로그가 지워졌습니다.".

(** The click listener of the clear button. *)
Definition clearLog (p : Page) : Page :=
  with_modbus (set_log [LogNotice cleared_text]) p.

(** What the network answers to the five fetches of a start-up or of a tick. *)
Record Replies := {
  status_reply : Reply;
  chart_reply : Reply;
  hourly_reply : Reply;
  health_reply : Reply;
  log_reply : Reply
}.

Section Startup.
Context `{Host}.

(** Which elements the page has, by id. *)
Variable present : string -> bool.

(** What [new Date()] reads in the Status render. *)
Variable now : number.
Variable replies : Replies.

(** [startChartUpdate()] *)
Definition startChartUpdate : M Client unit :=
  modify (with_timers restartChartInterval) ;;;
  on_page (updateChart (chart_reply replies)) ;;;
  on_page (updateHourlyData (hourly_reply replies)).

(** [startModbusUpdate()]: the handle of its interval is dropped. *)
Definition startModbusUpdate : M Client unit :=
  on_page (updateModbusStatus (health_reply replies)) ;;;
  on_page (updateModbusLog (log_reply replies)) ;;;
  modify (with_timers (fun t => snd (setInterval ModbusTask 2000 t))).

(** [initializeChart()], on a page that has loaded Chart.js: the canvas is
    looked up, and the chart starts without labels and data. *)
Definition initializeChart : M Client unit :=
  if present "powerChart" then
    on_page (modify (with_chart (fun _ =>
      Some {| labels := []; dataset := []; updates := [] |})))
  else lift (Throw (TypeError JNull "getContext")).

(** [document.getElementById(id).addEventListener('click', ...)] *)
Definition addClickListener (id : string) (c : Command) : M Client unit :=
  if present id then modify (with_listeners (fun l => l ++ [(id, c)])%list)
  else lift (Throw (TypeError JNull "addEventListener")).

(** [initializeEventListeners()]; the irradiance and temperature buttons run
    [setIrradiance] and [setTemperature]. *)
Definition initializeEventListeners : M Client unit :=
  addClickListener "btn-all-on" (ControlAllInverters "on") ;;;
  addClickListener "btn-all-off" (ControlAllInverters "off") ;;;
  addClickListener "btn-set-mode-all" SetControlModeAll ;;;
  addClickListener "btn-set-p-control-all" SetPControlAll ;;;
  addClickListener "btn-set-irradiance" SetIrradiance ;;;
  addClickListener "btn-set-temperature" SetTemperature.

(** [loadInitialData()] *)
Definition loadInitialData : M Client unit :=
  on_page (updateStatus now (status_reply replies)).

(** The first [DOMContentLoaded] listener. *)
Definition onDOMContentLoaded : M Client unit :=
  initializeChart ;;;
  initializeEventListeners ;;;
  modify (with_timers startAutoUpdate) ;;;
  startChartUpdate ;;;
  startModbusUpdate ;;;
  loadInitialData.

(** What an interval runs when it fires. *)
Definition fire (task : Task) : M Client unit :=
  match task with
  | StatusTask => on_page (updateStatus now (status_reply replies))
  | ChartTask =>
      on_page (updateChart (chart_reply replies)) ;;;
      on_page (updateHourlyData (hourly_reply replies))
  | ModbusTask =>
      on_page (updateModbusStatus (health_reply replies)) ;;;
      on_page (updateModbusLog (log_reply replies))
  end.

End Startup.

(** The page before the script runs: no chart yet. *)
Definition unloaded_page : Page :=
  {| status := blank_status; powerChart := None; hourly_list := [];
     modbus := blank_modbus; alert := blank_alert; console := [];
     requests := [] |}.

(** A window that has not run the script: no handle, no interval; the first
    handle [setInterval] gives is 1. *)
Definition fresh_timers : Timers :=
  {| updateInterval := None; chartInterval := None; active := [];
     next_timer := 1 |}.

Definition fresh_client : Client :=
  {| page := unloaded_page; timers := fresh_timers; listeners := [] |}.

(** The ids [onDOMContentLoaded] looks up. *)
Definition startup_ids : list string :=
  ["powerChart"; "btn-all-on"; "btn-all-off"; "btn-set-mode-all";
   "btn-set-p-control-all"; "btn-set-irradiance"; "btn-set-temperature"].

Definition is_task (task : Task) (tm : Timer) : bool :=
  match timer_task tm, task with
  | StatusTask, StatusTask | ChartTask, ChartTask | ModbusTask, ModbusTask => true
  | _, _ => false
  end.

(** The running intervals of a task. *)
Definition timers_of (task : Task) (t : Timers) : list Timer :=
  filter (is_task task) (active t).

(** The handles in use are positive and below the next one, the Status
    intervals are the one [updateInterval] holds, and that handle is the
    handle of no other interval. *)
Definition timers_inv (t : Timers) : Prop :=
  0 < next_timer t /\
  (forall tm, In tm (active t) -> 0 < timer_id tm < next_timer t) /\
  match timers_of StatusTask t with
  | [] => True
  | [tm] => updateInterval t = Some (timer_id tm)
  | _ => False
  end /\
  (forall tm, In tm (active t) -> updateInterval t = Some (timer_id tm) ->
              timer_task tm = StatusTask).

(* ------------------------------------------------------------------ *)
(** ** What the other renders are expected to show *)

Definition is_str (v : JsVal) : bool :=
  match v with
  | JStr _ => true
  | _ => false
  end.

Definition str_of (v : JsVal) : string :=
  match v with
  | JStr s => s
  | _ => ""
  end.

(** LogEntry: an object whose event type is a string and whose values, when
    it has some, are an array. *)
Definition wf_log `{Host} (log : JsVal) : bool :=
  not_nullish log && is_str (member log "event_type") &&
  (negb (has_items (member log "values")) || is_array (member log "values")).

Section ExpectedLog.
Context `{Host}.

(** The detail line the script builds: the join of the fields shown, after a
    separator when the address is not shown. *)
Definition detail_line (log : JsVal) : option string :=
  match detail_fields log with
  | [] => None
  | fields =>
      Some ((if not_nullish (member log "address") then "" else ", ") ++
            join ", " fields)
  end.

Definition entry_of (log : JsVal) : LogEntryView :=
  {| entry_class := "log-entry " ++ to_string (member log "event_type");
     log_time := toLocaleTimeString (member log "timestamp");
     log_event := toUpperCase (str_of (member log "event_type"));
     log_slave := to_string (member log "slave_id");
     log_function :=
       to_string (js_or (member log "function_name")
                        (JStr ("Function " ++ to_string (member log "function_code"))));
     log_mark := if truthy (member log "success") then "✓" else "✗";
     log_detail := detail_line log |}.

(** A counter of a slave card: the value, or 0 when it is missing or falsy. *)
Definition counter (stat : JsVal) (k : string) : string :=
  to_string (js_or (member stat k) (JNum num_zero)).

Definition slave_card_of (entry : string * JsVal) : SlaveCard :=
  let stat := snd entry in
  {| slave_id_text := fst entry;
     total_requests := counter stat "total_requests";
     total_responses := counter stat "total_responses";
     read_requests := counter stat "read_requests";
     write_requests := counter stat "write_requests";
     error_count := counter stat "error_count";
     last_request :=
       if truthy (member stat "last_request_time")
       then toLocaleTimeString (member stat "last_request_time") else "-" |}.


End ExpectedLog.


(** The request of a poll. *)
Definition get (url : string) : Request :=
  {| req_method := "GET"; req_url := url; req_body := None |}.


(** A computation that leaves a part of the page as it was. *)
Definition preserves {X A} (part : Page -> X) (c : M Page A) : Prop :=
  forall p, part (snd (c p)) = part p.

(** The indicator, the three texts and the slave grid of the Modbus region:
    all of it but the log pane. *)
Definition modbus_health (p : Page)
  : Indicator * string * string * string * list SlaveCard :=
  (modbus_status (modbus p), modbus_port (modbus p), modbus_baudrate (modbus p),
   modbus_slaves (modbus p), modbus_slaves_grid (modbus p)).

(** A record whose accumulated energy is a text, which has no [toFixed]. *)
Definition broken_hour : JsVal :=
  JObj [("hour", JStr "13:00"); ("accumulated_kwh", JStr "n/a")].

(** Statistics whose second entry is null. *)
Definition stats_with_null : JsVal :=
  JObj [("1", JObj [("total_requests", num 4)]); ("2", JNull);
        ("3", JObj [])].

Definition healthy_with_null_stat : JsVal :=
  JObj [("available", JBool true); ("actually_connected", JBool true);
        ("port_available", JBool true); ("server_running", JBool true);
        ("status",
         JObj [("port", JStr "COM3"); ("baudrate", num 9600);
               ("num_slaves", num 3); ("is_running", JBool true);
               ("communication_stats", stats_with_null)])].

(** An available payload that carries no [status]. *)
Definition health_without_status_payload : JsVal :=
  JObj [("available", JBool true); ("actually_connected", JBool false);
        ("port_available", JBool false); ("port_error", JStr "COM3 busy")].

(** A payload with its summary but without its two arrays. *)
Definition snapshot_without_arrays : JsVal :=
  JObj [("plant_id", JStr "PLANT_001");
        ("total_power",
         JObj [("total_active_power_kw", num 10);
               ("utilization_percent", num 5);
               ("total_reactive_power_kvar", num 0)]);
        ("total_capacity_mva", num 3)].

Definition all_present (id : string) : bool := true.

Definition without_button (id : string) : bool :=
  negb (String.eqb id "btn-set-p-control-all").

Definition failing_replies : Replies :=
  {| status_reply := NetworkError sample_error;
     chart_reply := NetworkError sample_error;
     hourly_reply := NetworkError sample_error;
     health_reply := NetworkError sample_error;
     log_reply := NetworkError sample_error |}.

(* ================================================================== *)
(** * Properties *)

(** ** Numbers *)

(** [fixed_integer] is the integer the language specification asks for: with
    [x = m / 2^p], [n / 10^f] is nearest to [x], the larger one on a tie. *)
Lemma fixed_integer_nearest (m p : positive) (f : nat) :
  let n := Z.of_N (fixed_integer m (Zneg p) f) in
  let scaled := (Zpos m * 10 ^ Z.of_nat f)%Z in
  (2 * scaled - 2 ^ Zpos p < 2 * n * 2 ^ Zpos p <= 2 * scaled + 2 ^ Zpos p)%Z.
Proof.
  intros n scaled. unfold n, fixed_integer. fold scaled.
  assert (Hpow : (0 < 2 ^ Zpos p)%Z) by (apply Z.pow_pos_nonneg; lia).
  assert (Hs : (0 <= scaled)%Z).
  { unfold scaled. apply Z.mul_nonneg_nonneg; [lia|]. apply Z.pow_nonneg; lia. }
  replace (2 ^ (Zpos p + 1))%Z with (2 * 2 ^ Zpos p)%Z
    by (rewrite Z.pow_add_r by lia; lia).
  set (d := (2 * 2 ^ Zpos p)%Z).
  set (a := (2 * scaled + 2 ^ Zpos p)%Z).
  assert (Hq : (0 <= a / d)%Z) by (apply Z.div_pos; unfold a, d; lia).
  rewrite Z2N.id by exact Hq.
  pose proof (Z.mul_div_le a d ltac:(unfold d; lia)) as Hle.
  pose proof (Z.mul_succ_div_gt a d ltac:(unfold d; lia)) as Hgt.
  unfold a, d in *. split; nia.
Qed.

(** The literal [123.456] denotes [num_123_456]: a binary64 value within half
    a unit in the last place of 123456/1000. *)
Lemma num_123_456_nearest :
  is_double num_123_456 = true /\
  (Z.abs (1000 * 8687443681197687 - 123456 * 2 ^ 46) <= 500)%Z.
Proof. split; [reflexivity | vm_compute; discriminate]. Qed.

Lemma toFixed_123_456 `{Host} : toFixed num_123_456 2 = "123.46".
Proof. reflexivity. Qed.

(** ** Reading well-formed values *)

Section Reading.
Context `{Host}.

Lemma get_prop_ok (v : JsVal) (k : string) :
  not_nullish v = true -> get_prop v k = Normal (member v k).
Proof. destruct v; simpl; intros Hv; try discriminate; reflexivity. Qed.

Lemma is_num_member (v : JsVal) (k : string) :
  is_num (member v k) = true -> not_nullish v = true.
Proof. destruct v; simpl; intros Hv; try discriminate; reflexivity. Qed.

Lemma call_toFixed_ok (v : JsVal) (f : nat) :
  is_num v = true -> call_toFixed v f = Normal (toFixed (num_of v) f).
Proof. destruct v; simpl; intros Hv; try discriminate; reflexivity. Qed.

Lemma fixed_field_ok (obj : JsVal) (k : string) (f : nat) :
  is_num (member obj k) = true -> fixed_field obj k f = Normal (reading obj k f).
Proof.
  intros Hk. unfold fixed_field, reading.
  rewrite (get_prop_ok obj k (is_num_member obj k Hk)). simpl.
  now apply call_toFixed_ok.
Qed.

Lemma createInverterCard_ok (inverter pvGen : JsVal) (index : nat) :
  wf_inverter inverter = true -> wf_pv pvGen = true ->
  createInverterCard inverter pvGen index
  = Normal (expected_card inverter pvGen index).
Proof.
  unfold wf_inverter, wf_pv, has_numbers. simpl forallb.
  intros Hi Hp.
  repeat (apply andb_prop in Hi; destruct Hi as [? Hi]).
  repeat (apply andb_prop in Hp; destruct Hp as [? Hp]).
  assert (Hm : not_nullish (member inverter "monitoring") = true)
    by (eapply is_num_member; eassumption).
  assert (Hpm : not_nullish (member pvGen "monitoring") = true)
    by (eapply is_num_member; eassumption).
  unfold createInverterCard.
  repeat (rewrite get_prop_ok by assumption; cbn [cbind]).
  repeat (rewrite fixed_field_ok by assumption; cbn [cbind]).
  reflexivity.
Qed.

End Reading.

(** ** Lists and page updates *)

Lemma skipn_nil_nth {A} (d : A) (l : list A) (i : nat) :
  skipn i l = [] -> nth i l d = d.
Proof.
  revert i. induction l as [|x l IH]; intros [|i] Hs; simpl in *;
    try reflexivity; try discriminate.
  now apply IH.
Qed.

Lemma skipn_cons_nth {A} (d x : A) (l r : list A) (i : nat) :
  skipn i l = x :: r -> nth i l d = x /\ skipn (S i) l = r.
Proof.
  revert i. induction l as [|y l IH]; intros [|i] Hs; simpl in *;
    try discriminate.
  - inversion Hs. split; reflexivity.
  - apply IH in Hs. destruct Hs as [Hn Hk]. split; [exact Hn|].
    destruct l; [destruct i; exact Hk | exact Hk].
Qed.

Lemma forallb_skipn {A} (f : A -> bool) (l : list A) (i : nat) :
  forallb f l = true -> forallb f (skipn i l) = true.
Proof.
  revert i. induction l as [|x l IH]; intros [|i] Hf; simpl in *;
    try reflexivity; try exact Hf.
  apply andb_prop in Hf. now apply IH.
Qed.

Lemma with_status_same (p : Page) :
  with_status (fun v => set_inverters_grid (inverters_grid v ++ []) v) p = p.
Proof.
  destruct p as [s c h m a co r]. destruct s. unfold with_status. simpl.
  unfold set_inverters_grid. simpl. now rewrite app_nil_r.
Qed.

Lemma with_status_ext (f g : StatusView -> StatusView) (p : Page) :
  f (status p) = g (status p) -> with_status f p = with_status g p.
Proof. intros Hfg. unfold with_status. now rewrite Hfg. Qed.

Lemma with_status_twice (f g : StatusView -> StatusView) (p : Page) :
  with_status g (with_status f p) = with_status (fun v => g (f v)) p.
Proof. reflexivity. Qed.

(** ** The inverter cards *)

Section Cards.
Context `{Host}.

(** The loop of [updateInverterCards] appends the cards of the pairs it finds
    and stops at the first inverter that has no generator. *)
Lemma cards_loop (pvs invs : list JsVal) :
  forallb wf_pv pvs = true ->
  forall (i : nat) (p : Page),
  forallb wf_inverter invs = true ->
  forEach (cardStep (JArr pvs)) invs i p
  = (if (List.length invs <=? List.length (skipn i pvs))%nat
     then Normal tt else Throw (TypeError JUndef "monitoring"),
     with_status (fun v =>
       set_inverters_grid
         (inverters_grid v ++ cards_from i invs (skipn i pvs))%list v) p).
Proof.
  intros Hp. induction invs as [|inv invs IH]; intros i p Hi.
  - simpl. now rewrite with_status_same.
  - simpl in Hi. apply andb_prop in Hi. destruct Hi as [Hinv Hi].
    assert (Hn : not_nullish inv = true).
    { unfold wf_inverter in Hinv. now apply andb_prop in Hinv. }
    cbn [forEach]. unfold bind at 1. unfold cardStep at 1.
    unfold bind at 1. unfold lift at 1. cbn [get_index].
    destruct (skipn i pvs) as [|pv rest] eqn:Hs.
    + rewrite (skipn_nil_nth JUndef pvs i Hs).
      unfold bind, lift, createInverterCard.
      rewrite !(get_prop_ok inv _ Hn). cbn.
      now rewrite with_status_same.
    + destruct (skipn_cons_nth JUndef pv pvs rest i Hs) as [Hnth Hrest].
      rewrite Hnth.
      assert (Hpv : wf_pv pv = true).
      { pose proof (forallb_skipn wf_pv pvs i Hp) as Hall.
        rewrite Hs in Hall. simpl in Hall. now apply andb_prop in Hall. }
      unfold bind at 1. unfold lift at 1.
      rewrite (createInverterCard_ok inv pv i Hinv Hpv).
      unfold appendCard, modify.
      rewrite (IH (S i) _ Hi). rewrite Hrest.
      cbn [List.length cards_from]. f_equal.
      rewrite with_status_twice. apply with_status_ext.
      unfold set_inverters_grid. cbn. now rewrite <- app_assoc.
Qed.

Lemma cards_from_length (i : nat) (invs pvs : list JsVal) :
  List.length (cards_from i invs pvs)
  = Nat.min (List.length invs) (List.length pvs).
Proof.
  revert i pvs. induction invs as [|inv invs IH]; intros i [|pv pvs]; simpl;
    try reflexivity.
  now rewrite IH.
Qed.


(** [updateInverterCards] on two arrays of well-formed elements. *)
Lemma updateInverterCards_arrays (invs pvs : list JsVal) (p : Page) :
  forallb wf_inverter invs = true -> forallb wf_pv pvs = true ->
  updateInverterCards (JArr invs) (JArr pvs) p
  = (if (List.length invs <=? List.length pvs)%nat
     then Normal tt else Throw (TypeError JUndef "monitoring"),
     with_status (set_inverters_grid (cards_from 0 invs pvs)) p).
Proof.
  intros Hi Hp. unfold updateInverterCards, bind, modify.
  rewrite (cards_loop pvs invs Hp 0 _ Hi). simpl skipn. f_equal.
Qed.

End Cards.

(** ** The Status render *)

Section StatusRender.
Context `{Host}.

(** The summary and the grid a well-formed snapshot renders. *)
Lemma updateUI_ok (now : number) (data : JsVal) (p : Page) :
  wf_snapshot data = true ->
  updateUI now data p
  = (Normal tt,
     with_status (fun _ =>
       {| plant_id := "발전소: " ++ to_string (member data "plant_id");
          update_time := "업데이트: " ++ toLocaleTimeString (JNum now);
          total_power := reading (member data "total_power") "total_active_power_kw" 2;
          utilization := reading (member data "total_power") "utilization_percent" 2;
          reactive_power :=
            reading (member data "total_power") "total_reactive_power_kvar" 2;
          rated_capacity := reading data "total_capacity_mva" 2;
          inverters_grid :=
            cards_from 0 (items_of (member data "inverters"))
                         (items_of (member data "pv_generators")) |}) p).
Proof.
  unfold wf_snapshot, has_numbers. simpl forallb. intros Hw.
  repeat (apply andb_prop in Hw; destruct Hw as [Hw ?]).
  repeat match goal with
         | Hc : (_ && _)%bool = true |- _ =>
             apply andb_prop in Hc; destruct Hc as [? ?]
         end.
  destruct (member data "inverters") as [| | | | |invs|] eqn:Einv; try discriminate.
  destruct (member data "pv_generators") as [| | | | |pvs|] eqn:Epv;
    try discriminate.
  simpl items_of in *.
  unfold updateUI, bind, lift, modify.
  repeat (rewrite get_prop_ok by assumption).
  repeat (rewrite fixed_field_ok by assumption).
  rewrite Einv, Epv.
  rewrite updateInverterCards_arrays by assumption.
  match goal with
  | Hl : Nat.eqb _ _ = true |- _ => apply Nat.eqb_eq in Hl; rewrite Hl
  end.
  rewrite Nat.leb_refl. reflexivity.
Qed.

End StatusRender.

Section StatusClaims.
Context `{Host}.


(** Claim C10.  The render reads [pv_generators[i]] for every inverter [i]:
    on arrays of well-formed elements it completes exactly when
    [pv_generators] is at least as long as [inverters]; with equal lengths it
    is total, and with a shorter [pv_generators] it throws on the member read
    of [undefined] after the cards of the existing pairs were inserted. *)
Theorem inverter_cards_complete_iff (invs pvs : list JsVal) (p : Page) :
  forallb wf_inverter invs = true -> forallb wf_pv pvs = true ->
  let r := updateInverterCards (JArr invs) (JArr pvs) p in
  (fst r = Normal tt <-> List.length invs <= List.length pvs) /\
  (List.length invs = List.length pvs ->
   fst r = Normal tt /\
   List.length (inverters_grid (status (snd r))) = List.length invs) /\
  (List.length pvs < List.length invs ->
   fst r = Throw (TypeError JUndef "monitoring") /\
   inverters_grid (status (snd r)) = cards_from 0 invs pvs /\
   List.length (inverters_grid (status (snd r))) = List.length pvs).
Proof.
  intros Hi Hp r. unfold r.
  rewrite (updateInverterCards_arrays invs pvs p Hi Hp).
  cbn [fst snd with_status status set_inverters_grid inverters_grid].
  rewrite cards_from_length.
  destruct (List.length invs <=? List.length pvs)%nat eqn:Hle.
  - apply Nat.leb_le in Hle. repeat split; try lia; intros; try lia.
  - apply Nat.leb_gt in Hle. repeat split; try lia; try discriminate;
      intros; try lia.
Qed.

(** Claim C3, as amended.  A Status poll that fails at the transport level
    (a network error, or a body that is not JSON) is caught and leaves the
    rendered plant summary and inverter cards, and every other rendered
    region, exactly as they were. *)
Theorem failed_transport_keeps_status (now : number) (reply : Reply) (p : Page) :
  is_transport_failure reply = true ->
  let r := updateStatus now reply p in
  fst r = Normal tt /\ status (snd r) = status p /\
  powerChart (snd r) = powerChart p /\ hourly_list (snd r) = hourly_list p /\
  modbus (snd r) = modbus p /\ alert (snd r) = alert p.
Proof.
  intros Hf r. unfold r.
  destruct reply as [e|e|v]; try discriminate; repeat split.
Qed.

End StatusClaims.


Lemma inverter_cards_complete_iff_witness :
  forallb wf_inverter [sample_inverter "INV_001" true;
                       sample_inverter "INV_002" false] = true /\
  forallb wf_pv [sample_pv "MPPT"] = true /\
  fst (@updateInverterCards sample_host
         (JArr [sample_inverter "INV_001" true; sample_inverter "INV_002" false])
         (JArr [sample_pv "MPPT"]) blank_page)
  = Throw (@TypeError sample_host JUndef "monitoring").
Proof.
  split; [reflexivity|]. split; [reflexivity|].
  pose proof (@inverter_cards_complete_iff sample_host
                [sample_inverter "INV_001" true; sample_inverter "INV_002" false]
                [sample_pv "MPPT"] blank_page eq_refl eq_refl) as Hw.
  cbv zeta in Hw. destruct Hw as (_ & _ & Hw).
  apply Hw. simpl. lia.
Defined.

Lemma failed_transport_keeps_status_witness :
  is_transport_failure (NetworkError sample_error) = true /\
  status (snd (@updateStatus sample_host (num_of_Z 5)
                 (NetworkError sample_error) blank_page)) = status blank_page.
Proof.
  split; [reflexivity|].
  pose proof (@failed_transport_keeps_status sample_host (num_of_Z 5)
                (NetworkError sample_error) blank_page eq_refl) as Hw.
  cbv zeta in Hw. destruct Hw as (_ & Hw & _). exact Hw.
Defined.

(** Claim C3 as stated fails: a parsed body that is not a snapshot (here the
    error payload of a server, with [success: false]) counts as a failed poll,
    yet the plant name and the update time are overwritten before the failure
    is caught. *)
Lemma failed_poll_overwrites_summary :
  ~ (forall (H : Host) (now : number) (reply : Reply) (p : Page),
       poll_failed reply = true ->
       status (snd (updateStatus now reply p)) = status p).
Proof.
  intros Hall.
  specialize (Hall sample_host (num_of_Z 5) (Json error_payload) blank_page eq_refl).
  apply (f_equal plant_id) in Hall. vm_compute in Hall. discriminate.
Qed.

(** ** What a Status refresh touches *)

Lemma same_outside_status_refl (p : Page) : same_outside_status p p.
Proof. repeat split. Qed.

Lemma same_outside_status_trans (p q r : Page) :
  same_outside_status p q -> same_outside_status q r -> same_outside_status p r.
Proof.
  unfold same_outside_status.
  intros (A1 & A2 & A3 & A4 & A5 & A6) (B1 & B2 & B3 & B4 & B5 & B6).
  repeat split; congruence.
Qed.

Lemma status_only_lift {A} (c : Completion A) : status_only (lift c).
Proof. intros p. apply same_outside_status_refl. Qed.

Lemma status_only_modify (f : StatusView -> StatusView) :
  status_only (modify (with_status f)).
Proof. intros p. repeat split. Qed.

Lemma status_only_bind {A B} (c : M Page A) (k : A -> M Page B) :
  status_only c -> (forall a, status_only (k a)) -> status_only (bind c k).
Proof.
  intros Hc Hk p. unfold bind. specialize (Hc p).
  destruct (c p) as [[a|e] p1]; simpl in *.
  - eapply same_outside_status_trans; [exact Hc | apply Hk].
  - exact Hc.
Qed.

Lemma status_only_forEach {A} (f : A -> nat -> M Page unit) (items : list A) :
  (forall x i, status_only (f x i)) -> forall i, status_only (forEach f items i).
Proof.
  intros Hf. induction items as [|x items IH]; intros i; simpl.
  - intros p. apply same_outside_status_refl.
  - apply status_only_bind; [apply Hf | intros _; apply IH].
Qed.

Create HintDb status_only.
#[local] Hint Resolve status_only_lift status_only_modify : status_only.

Section Refresh.
Context `{Host}.

Lemma updateUI_status_only (now : number) (data : JsVal) :
  status_only (updateUI now data).
Proof.
  unfold updateUI, updateInverterCards.
  repeat (apply status_only_bind; [auto with status_only | intros ?]).
  match goal with
  | |- status_only (match ?v with _ => _ end) => destruct v
  end; auto with status_only.
  apply status_only_forEach. intros x i. unfold cardStep, appendCard.
  repeat (apply status_only_bind; [auto with status_only | intros ?]).
  auto with status_only.
Qed.

Lemma notifications_error (label : string) (e : JsError) (p : Page) :
  notifications (with_console (fun c => c ++ [ConsoleError label e])%list p)
  = notifications p.
Proof.
  unfold notifications. simpl. rewrite flat_map_app. simpl. apply app_nil_r.
Qed.

Lemma notifications_log (text : string) (p : Page) :
  notifications (with_console (fun c => c ++ [ConsoleLog text])%list p)
  = (notifications p ++ [text])%list.
Proof. unfold notifications. simpl. now rewrite flat_map_app. Qed.

(** A Status refresh never throws, shows no notification, issues exactly one
    Status fetch and writes nothing outside the Status region but the console. *)
Lemma updateStatus_effects (now : number) (reply : Reply) (p : Page) :
  let r := updateStatus now reply p in
  fst r = Normal tt /\
  notifications (snd r) = notifications p /\
  status_fetches (snd r) = S (status_fetches p) /\
  alert (snd r) = alert p /\ modbus (snd r) = modbus p.
Proof.
  intros r. unfold r, updateStatus, try_catch, fetch_json, bind, modify, ret, lift.
  cbv beta iota.
  set (p1 := with_requests _ p).
  assert (Hf : status_fetches p1 = S (status_fetches p)).
  { unfold p1, status_fetches. simpl. rewrite filter_app, length_app. simpl. lia. }
  assert (Hn : notifications p1 = notifications p) by reflexivity.
  destruct reply as [e|e|v]; cbv beta iota.
  - unfold console_error, modify. simpl fst. simpl snd.
    rewrite notifications_error. repeat split; assumption.
  - unfold console_error, modify. simpl fst. simpl snd.
    rewrite notifications_error. repeat split; assumption.
  - pose proof (updateUI_status_only now v p1) as Hs.
    destruct (updateUI now v p1) as [[[]|e] p2]; simpl in Hs;
      destruct Hs as (_ & _ & Hm & Ha & Hc & Hq).
    + simpl. unfold notifications, status_fetches in *.
      rewrite Hc, Hq, Ha, Hm. repeat split; assumption.
    + unfold console_error, modify. simpl fst. simpl snd.
      rewrite notifications_error.
      unfold notifications, status_fetches in *. simpl.
      rewrite Hc, Hq, Ha, Hm. repeat split; assumption.
Qed.

End Refresh.

(** ** Command dispatch *)

Section CommandClaims.
Context `{Host}.
Variable form : string -> option string.
Variable refresh_now : number.
Variable refresh_reply : Reply.

Lemma showMessage_effects (message : JsVal) (type : string) (p : Page) :
  showMessage message type p
  = (Normal tt,
     with_console (fun c =>
       app c [ConsoleLog ("[" ++ toUpperCase type ++ "] " ++ to_string message)]) p).
Proof. reflexivity. Qed.

(** A caught error becomes one error notification; nothing is fetched. *)
Lemma reportError_effects (prefix : string) (e : JsError) (p : Page) :
  let r := reportError prefix e p in
  fst r = Normal tt /\
  notifications (snd r)
  = app (notifications p) ["[ERROR] " ++ prefix ++ err_message e] /\
  status_fetches (snd r) = status_fetches p /\ status (snd r) = status p.
Proof.
  intros r. unfold r, reportError. rewrite showMessage_effects.
  cbn [fst snd]. rewrite notifications_log. repeat split.
Qed.

(** The request a handler sends, followed by the report of its result. *)
Lemma send_and_report (prefix url : string) (body : option JsVal)
  (reply : Reply) (p : Page) :
  String.eqb url "/api/status" = false ->
  let r := try_catch
             (result <- fetch_json "POST" url body reply ;;
              reportResult refresh_now refresh_reply result)
             (reportError prefix) p in
  fst r = Normal tt /\
  (forall result,
     reply = Json result -> not_nullish result = true ->
     (truthy (member result "success") = true ->
      notifications (snd r)
      = app (notifications p) ["[SUCCESS] " ++ to_string (member result "message")] /\
      status_fetches (snd r) = S (status_fetches p)) /\
     (truthy (member result "success") = false ->
      notifications (snd r)
      = app (notifications p) ["[ERROR] " ++ to_string (member result "message")] /\
      status_fetches (snd r) = status_fetches p /\
      status (snd r) = status p)) /\
  (forall e,
     reply = NetworkError e \/ reply = BadBody e ->
     notifications (snd r)
     = app (notifications p) ["[ERROR] " ++ prefix ++ err_message e] /\
     status_fetches (snd r) = status_fetches p /\
     status (snd r) = status p).
Proof.
  intros Hu r. unfold r, try_catch, fetch_json, bind, modify, ret, lift.
  cbv beta iota.
  set (p1 := with_requests _ p).
  assert (Hf : status_fetches p1 = status_fetches p).
  { unfold p1, status_fetches. simpl. rewrite filter_app, length_app. simpl.
    rewrite Hu. simpl. lia. }
  assert (Hn : notifications p1 = notifications p) by reflexivity.
  assert (Hs : status p1 = status p) by reflexivity.
  destruct reply as [e|e|result]; cbv beta iota.
  - pose proof (reportError_effects prefix e p1) as (He1 & He2 & He3 & He4).
    split; [exact He1|]. split.
    + intros result Hr; discriminate.
    + intros e' [He'|He']; inversion He'; subst. rewrite He2, He3, He4, Hn, Hf, Hs.
      repeat split.
  - pose proof (reportError_effects prefix e p1) as (He1 & He2 & He3 & He4).
    split; [exact He1|]. split.
    + intros result Hr; discriminate.
    + intros e' [He'|He']; inversion He'; subst. rewrite He2, He3, He4, Hn, Hf, Hs.
      repeat split.
  - destruct (not_nullish result) eqn:Hnn.
    + unfold reportResult, bind, lift.
      rewrite (get_prop_ok result "success" Hnn).
      destruct (truthy (member result "success")) eqn:Hsucc.
      * rewrite (get_prop_ok result "message" Hnn).
        rewrite showMessage_effects.
        set (p2 := with_console _ p1).
        pose proof (updateStatus_effects refresh_now refresh_reply p2)
          as (Hu1 & Hu2 & Hu3 & _).
        destruct (updateStatus refresh_now refresh_reply p2) as [c p3].
        simpl in Hu1, Hu2, Hu3. subst c. cbn [fst snd].
        split; [reflexivity|]. split.
        -- intros result' Hr _. inversion Hr; subst result'. split.
           ++ intros _. rewrite Hu2, Hu3. unfold p2.
              rewrite notifications_log, Hn. split; [reflexivity|].
              f_equal. exact Hf.
           ++ intros Hfalse. rewrite Hsucc in Hfalse. discriminate.
        -- intros e [He|He]; discriminate.
      * rewrite (get_prop_ok result "message" Hnn).
        rewrite showMessage_effects. cbn [fst snd].
        split; [reflexivity|]. split.
        -- intros result' Hr _. inversion Hr; subst result'. split.
           ++ intros Htrue. rewrite Hsucc in Htrue. discriminate.
           ++ intros _. rewrite notifications_log, Hn. split; [reflexivity|].
              split; [|reflexivity]. exact Hf.
        -- intros e [He|He]; discriminate.
    + assert (Hthrow : reportResult refresh_now refresh_reply result p1
                       = (Throw (TypeError result "success"), p1)).
      { destruct result; try discriminate; reflexivity. }
      rewrite Hthrow.
      pose proof (reportError_effects prefix (TypeError result "success") p1)
        as (He1 & _).
      split; [exact He1|]. split.
      * intros result' Hr Hnn'. inversion Hr; subst result'.
        rewrite Hnn in Hnn'. discriminate.
      * intros e [He|He]; discriminate.
Qed.

Lemma try_catch_lift_normal {A B} (a : A) (k : A -> M Page B)
  (h : JsError -> M Page B) (p : Page) :
  try_catch (bind (lift (Normal a)) k) h p = try_catch (k a) h p.
Proof. reflexivity. Qed.

Lemma try_catch_lift_throw {A B} (e : JsError) (k : A -> M Page B)
  (h : JsError -> M Page B) (p : Page) :
  try_catch (bind (lift (Throw e)) k) h p = h e p.
Proof. reflexivity. Qed.

(** Claim C4.  Whatever the network answers, a command handler completes
    normally: nothing propagates past it.  When its request was sent and the
    parsed response is truthy in [success], it shows one success notification
    with the server's message and issues exactly one Status fetch; when
    [success] is falsy it shows one error notification with the server's
    message, issues no Status fetch and leaves the Status region alone; when
    the fetch rejects or the body is not JSON it shows one error notification
    made of the handler's generic prefix and the failure's message, and issues
    no Status fetch. *)
Theorem command_outcome (c : Command) (reply : Reply) (p : Page) :
  let r := dispatch form refresh_now refresh_reply c reply p in
  fst r = Normal tt /\
  (request_sent form c = true ->
   (forall result,
      reply = Json result -> not_nullish result = true ->
      (truthy (member result "success") = true ->
       notifications (snd r)
       = app (notifications p)
             ["[SUCCESS] " ++ to_string (member result "message")] /\
       status_fetches (snd r) = S (status_fetches p)) /\
      (truthy (member result "success") = false ->
       notifications (snd r)
       = app (notifications p)
             ["[ERROR] " ++ to_string (member result "message")] /\
       status_fetches (snd r) = status_fetches p /\
       status (snd r) = status p)) /\
   (forall e,
      reply = NetworkError e \/ reply = BadBody e ->
      notifications (snd r)
      = app (notifications p) ["[ERROR] " ++ error_prefix c ++ err_message e] /\
      status_fetches (snd r) = status_fetches p /\
      status (snd r) = status p)).
Proof.
  cbv zeta.
  destruct c as [index action|action|index| |index| | |]; cbn [dispatch error_prefix];
    unfold request_sent; cbn [form_input];
    unfold controlInverter, controlAllInverters, setControlMode,
      setControlModeAll, setPControl, setPControlAll, setIrradiance,
      setTemperature, element_value; cbv zeta.
  1, 2:
    match goal with
    | |- context [try_catch (bind (fetch_json _ ?url ?body _) _) (reportError ?pre) _] =>
        pose proof (send_and_report pre url body reply p) as Hsend
    end;
    cbv zeta in Hsend;
    (destruct Hsend as (H1 & H2 & H3);
     [ destruct (String.eqb action "on"); reflexivity
     | split; [exact H1 | intros _; split; [exact H2 | exact H3]] ]).
  all:
    match goal with
    | |- context [form ?id] => destruct (form id) as [value|] eqn:Hform
    end;
    [ rewrite try_catch_lift_normal;
      match goal with
      | |- context [try_catch (bind (fetch_json _ ?url ?body _) _) (reportError ?pre) _] =>
          pose proof (send_and_report pre url body reply p) as Hsend
      end;
      cbv zeta in Hsend;
      (destruct Hsend as (H1 & H2 & H3);
       [ reflexivity
       | split; [exact H1 | intros _; split; [exact H2 | exact H3]] ])
    | rewrite try_catch_lift_throw;
      split; [apply reportError_effects | intros Hsent; discriminate] ].
Qed.

End CommandClaims.

Lemma command_outcome_witness :
  request_sent sample_form (SetPControl 0) = true /\
  not_nullish sample_result = true /\
  truthy (member sample_result "success") = true /\
  let r := @dispatch sample_host sample_form (num_of_Z 5) (Json sample_snapshot)
             (SetPControl 0) (Json sample_result) blank_page in
  notifications (snd r) = ["[SUCCESS] P control set"] /\
  status_fetches (snd r) = 1.
Proof.
  split; [reflexivity|]. split; [reflexivity|]. split; [reflexivity|].
  pose proof (@command_outcome sample_host sample_form (num_of_Z 5)
                (Json sample_snapshot) (SetPControl 0) (Json sample_result)
                blank_page) as Hw.
  cbv zeta in Hw. destruct Hw as (_ & Hw).
  destruct (Hw eq_refl) as (Hw1 & _).
  destruct (Hw1 sample_result eq_refl eq_refl) as (Hw2 & _).
  exact (Hw2 eq_refl).
Defined.

(** ** The alert banner *)

Lemma filter_filter_comm {A} (f g : A -> bool) (l : list A) :
  filter f (filter g l) = filter g (filter f l).
Proof.
  induction l as [|x l IH]; simpl; [reflexivity|].
  destruct (f x) eqn:Hf, (g x) eqn:Hg; simpl; rewrite ?Hf, ?Hg, IH; reflexivity.
Qed.

(** Once the element of the slot has left the section, no banner stays. *)
Lemma banners_after_remove (a : Alert) (old : Node) :
  alert_inv a -> modbusAlertElement a = Some old ->
  match remove_node old (modbus_section a) with
  | Some children => filter is_banner children
  | None => []
  end = [].
Proof.
  unfold alert_inv, banners, remove_node. intros Hinv Hslot.
  destruct (modbus_section a) as [children|]; simpl; [|reflexivity].
  rewrite filter_filter_comm.
  destruct (filter is_banner children) as [|n [|n' rest]]; simpl.
  - reflexivity.
  - rewrite Hslot in Hinv. inversion Hinv; subst n.
    now rewrite Nat.eqb_refl.
  - contradiction.
Qed.

Lemma hide_banners (a : Alert) :
  alert_inv a -> banners (hideModbusAlert a) = [].
Proof.
  intros Hinv. unfold hideModbusAlert.
  destruct (modbusAlertElement a) as [old|] eqn:Hslot.
  - unfold banners. cbn [modbus_section].
    now apply banners_after_remove.
  - unfold alert_inv in Hinv. rewrite Hslot in Hinv.
    destruct (banners a) as [|n [|n' rest]]; try reflexivity;
      try discriminate; contradiction.
Qed.

Lemma hide_inv (a : Alert) : alert_inv a -> alert_inv (hideModbusAlert a).
Proof. intros Hinv. unfold alert_inv. now rewrite hide_banners. Qed.

Section AlertClaims.
Context `{Host}.

Lemma show_slot (message : JsVal) (a : Alert) :
  modbusAlertElement (showModbusAlert message a) = Some (new_banner message a).
Proof. reflexivity. Qed.

Lemma show_banners (message : JsVal) (a : Alert) :
  alert_inv a ->
  banners (showModbusAlert message a)
  = match modbus_section a with
    | Some _ => [new_banner message a]
    | None => []
    end.
Proof.
  intros Hinv. unfold showModbusAlert, banners. cbn [modbus_section].
  destruct (modbusAlertElement a) as [old|] eqn:Hslot.
  - pose proof (banners_after_remove a old Hinv Hslot) as Hrm.
    unfold remove_node in *.
    destruct (modbus_section a) as [children|]; simpl in *; [|reflexivity].
    now rewrite Hrm.
  - unfold alert_inv, banners in Hinv. rewrite Hslot in Hinv.
    destruct (modbus_section a) as [children|]; simpl in *; [|reflexivity].
    destruct (filter is_banner children) as [|n [|n' rest]]; try reflexivity;
      try discriminate; contradiction.
Qed.

Lemma show_inv (message : JsVal) (a : Alert) :
  alert_inv a -> alert_inv (showModbusAlert message a).
Proof.
  intros Hinv. unfold alert_inv. rewrite (show_banners message a Hinv).
  destruct (modbus_section a); [apply show_slot | exact I].
Qed.

Lemma run_op_inv (op : AlertOp) (a : Alert) :
  alert_inv a -> alert_inv (run_op op a).
Proof. destruct op; [apply show_inv | apply hide_inv]. Qed.

Lemma inv_at_most_one (a : Alert) :
  alert_inv a -> List.length (banners a) <= 1.
Proof.
  unfold alert_inv. destruct (banners a) as [|n [|n' rest]]; simpl;
    intros Hinv; try lia; contradiction.
Qed.

(** Claim C5.  From a page whose banners, if any, are owned by the slot,
    every sequence of show and hide operations keeps at most one banner in the
    document after each operation; and two shows in succession leave the slot
    holding the banner of the second message, which is the one banner of the
    document (the first was removed before the second was inserted) whenever
    the page has a Modbus section to insert it in. *)
Theorem at_most_one_banner (a : Alert) (ops : list AlertOp) :
  alert_inv a ->
  Forall (fun a' => List.length (banners a') <= 1) (visited ops a) /\
  (forall m1 m2,
     let a2 := showModbusAlert m2 (showModbusAlert m1 a) in
     List.length (banners a2) <= 1 /\
     (exists b, modbusAlertElement a2 = Some b /\
                node_message b = to_string m2 /\
                (modbus_section a <> None -> banners a2 = [b]))).
Proof.
  intros Hinv. split.
  - revert a Hinv. induction ops as [|op ops IH]; intros a Hinv; simpl.
    + constructor.
    + constructor.
      * apply inv_at_most_one. now apply run_op_inv.
      * apply IH. now apply run_op_inv.
  - intros m1 m2 a2. unfold a2.
    pose proof (show_inv m1 a Hinv) as Hinv1.
    split; [apply inv_at_most_one; now apply show_inv|].
    exists (new_banner m2 (showModbusAlert m1 a)).
    split; [apply show_slot|]. split; [reflexivity|].
    intros Hsec. rewrite (show_banners m2 _ Hinv1).
    unfold showModbusAlert at 1. cbn [modbus_section].
    destruct (modbusAlertElement a);
      destruct (modbus_section a); simpl; try reflexivity; contradiction.
Qed.

End AlertClaims.

Lemma at_most_one_banner_witness :
  alert_inv blank_alert /\
  banners (@showModbusAlert sample_host (JStr "second")
             (@showModbusAlert sample_host (JStr "first") blank_alert))
  = [{| node_id := 2; node_class := alert_class; node_message := "second" |}].
Proof.
  split; [exact I|].
  pose proof (@at_most_one_banner sample_host blank_alert
                [Show (JStr "first"); Hide] I) as Hw.
  destruct Hw as (_ & Hw).
  specialize (Hw (JStr "first") (JStr "second")). cbv zeta in Hw.
  destruct Hw as (_ & b & Hb & _ & Hw).
  assert (Hsec : modbus_section blank_alert <> None) by discriminate.
  rewrite (Hw Hsec). f_equal. simpl in Hb. now inversion Hb.
Defined.

(** ** The health render *)

Lemma bind_modify {St B} (f : St -> St) (k : unit -> M St B) (s : St) :
  bind (modify f) k s = k tt (f s).
Proof. reflexivity. Qed.

Lemma with_modbus_same (p : Page) :
  with_modbus (fun v => set_slaves_grid (modbus_slaves_grid v ++ []) v) p = p.
Proof.
  destruct p as [s c h m a co r]. destruct m. unfold with_modbus, set_slaves_grid.
  simpl. now rewrite app_nil_r.
Qed.

Lemma with_modbus_ext (f g : ModbusView -> ModbusView) (p : Page) :
  f (modbus p) = g (modbus p) -> with_modbus f p = with_modbus g p.
Proof. intros Hfg. unfold with_modbus. now rewrite Hfg. Qed.

Lemma with_modbus_twice (f g : ModbusView -> ModbusView) (p : Page) :
  with_modbus g (with_modbus f p) = with_modbus (fun v => g (f v)) p.
Proof. reflexivity. Qed.

Section Health.
Context `{Host}.






(** X19.  Without its [status] object an available payload is not a ModbusHealth:
    the member read of [undefined] throws, the indicator keeps what it showed
    and the handler shows the generic query error. *)
Lemma health_without_status (data : JsVal) (p : Page) :
  not_nullish data = true ->
  truthy (member data "available") = true ->
  member data "status" = JUndef ->
  let r := updateModbusStatus (Json data) p in
  modbus (snd r) = modbus p /\
  alert (snd r) = showModbusAlert (JStr query_error_text) (alert p).
Proof.
  intros Hd Hav Hst. cbv zeta.
  unfold updateModbusStatus, try_catch, fetch_json, bind, lift, modify, ret.
  cbv beta iota.
  rewrite !(get_prop_ok data _ Hd). cbv beta iota. rewrite Hav, Hst.
  split; reflexivity.
Qed.

(** Claim C9.  A transport failure of the health fetch is caught, and the
    handler shows the alert with the fixed generic message: the slot then
    holds a banner bearing that message, which on a page with a Modbus
    section is the one banner of the document (an earlier banner was
    removed); the banner stays until a later cycle hides it.  The other
    pollers leave the alert as it was on the same failure. *)
Theorem health_failure_shows_alert (reply : Reply) (p : Page) :
  is_transport_failure reply = true ->
  let r := updateModbusStatus reply p in
  fst r = Normal tt /\
  modbus (snd r) = modbus p /\
  alert (snd r) = showModbusAlert (JStr query_error_text) (alert p) /\
  (exists b,
     modbusAlertElement (alert (snd r)) = Some b /\
     node_message b = query_error_text /\
     (alert_inv (alert p) -> modbus_section (alert p) <> None ->
      banners (alert (snd r)) = [b])) /\
  (alert_inv (alert p) -> banners (hideModbusAlert (alert (snd r))) = []) /\
  (forall now, alert (snd (updateStatus now reply p)) = alert p) /\
  alert (snd (updateChart reply p)) = alert p /\
  alert (snd (updateHourlyData reply p)) = alert p /\
  alert (snd (updateModbusLog reply p)) = alert p.
Proof.
  intros Hf. cbv zeta.
  assert (Ha : alert (snd (updateModbusStatus reply p))
               = showModbusAlert (JStr query_error_text) (alert p))
    by (destruct reply; try discriminate; reflexivity).
  split; [destruct reply; try discriminate; reflexivity|].
  split; [destruct reply; try discriminate; reflexivity|].
  split; [exact Ha|]. rewrite Ha. split.
  - exists (new_banner (JStr query_error_text) (alert p)).
    split; [reflexivity|]. split; [reflexivity|].
    intros Hinv Hsec. rewrite (show_banners _ _ Hinv).
    destruct (modbus_section (alert p)); [reflexivity | contradiction].
  - split.
    + intros Hinv. apply hide_banners. now apply show_inv.
    + repeat split; intros; destruct reply; try discriminate; reflexivity.
Qed.

End Health.


Lemma health_failure_shows_alert_witness :
  is_transport_failure (BadBody sample_error) = true /\
  alert_inv blank_alert /\
  modbus_section blank_alert <> None /\
  List.length
    (banners (alert (snd (@updateModbusStatus sample_host (BadBody sample_error)
                            blank_page)))) = 1.
Proof.
  split; [reflexivity|]. split; [exact I|]. split; [discriminate|].
  pose proof (@health_failure_shows_alert sample_host (BadBody sample_error)
                blank_page eq_refl) as Hw.
  cbv zeta in Hw. destruct Hw as (_ & _ & _ & (b & _ & _ & Hw) & _).
  rewrite (Hw I ltac:(discriminate)). reflexivity.
Defined.

(** ** The hourly list and the chart *)

Lemma with_hourly_same (p : Page) : with_hourly (fun l => l ++ [])%list p = p.
Proof.
  destruct p as [s c h m a co r]. unfold with_hourly. simpl.
  now rewrite app_nil_r.
Qed.

Lemma map_items_ok {A B} (f : A -> Completion B) (g : A -> B) (items : list A) :
  (forall x, In x items -> f x = Normal (g x)) ->
  map_items f items = Normal (map g items).
Proof.
  induction items as [|x items IH]; intros Hf; simpl; [reflexivity|].
  rewrite (Hf x (or_introl eq_refl)).
  rewrite IH by (intros y Hy; apply Hf; now right). reflexivity.
Qed.

Lemma slice_last_min {A} (n : nat) (items : list A) :
  slice_last n items
  = skipn (List.length items - Nat.min (List.length items) n) items /\
  List.length (slice_last n items) = Nat.min (List.length items) n.
Proof.
  unfold slice_last. split.
  - f_equal. lia.
  - rewrite length_skipn. lia.
Qed.

Section HistoryClaims.
Context `{Host}.

Lemma hourly_loop (items : list JsVal) :
  forallb wf_hourly items = true ->
  forall (i : nat) (p : Page),
  forEach hourlyStep items i p
  = (Normal tt, with_hourly (fun l => l ++ map hourly_row items)%list p).
Proof.
  induction items as [|item items IH]; intros Hall i p.
  - simpl. now rewrite with_hourly_same.
  - simpl in Hall. apply andb_prop in Hall. destruct Hall as [Hitem Hall].
    unfold wf_hourly in Hitem. apply andb_prop in Hitem.
    destruct Hitem as [Hn Hk].
    cbn [forEach]. unfold bind at 1. unfold hourlyStep at 1.
    unfold bind, lift, modify.
    rewrite (get_prop_ok item "hour" Hn).
    rewrite (fixed_field_ok item "accumulated_kwh" 2 Hk).
    fold (@bind Page unit unit). rewrite (IH Hall (S i)).
    f_equal. unfold with_hourly. simpl. f_equal.
    now rewrite <- app_assoc.
Qed.

(** Claim C6.  For an hourly sequence of [N] well-formed records the list
    shows exactly [min N 24] rows, the last [min N 24] records in their
    order; for [N = 0] it shows the "no data" notice and no row; thirty
    records show records 7 to 30. *)
Theorem hourly_render_last_24 (result : JsVal) (items : list JsVal) (p : Page) :
  not_nullish result = true ->
  member result "hourly_data" = JArr items ->
  forallb wf_hourly items = true ->
  let r := updateHourlyData (Json result) p in
  let n := Nat.min (List.length items) 24 in
  fst r = Normal tt /\
  (items = [] -> hourly_list (snd r) = [HourlyNotice no_data_text]) /\
  (items <> [] ->
   hourly_list (snd r) = map hourly_row (skipn (List.length items - n) items) /\
   List.length (hourly_list (snd r)) = n) /\
  (List.length items = 30 ->
   hourly_list (snd r) = map hourly_row (skipn 6 items)).
Proof.
  intros Hr Hdata Hall. cbv zeta.
  unfold updateHourlyData, try_catch, fetch_json, bind, lift, modify, ret.
  cbv beta iota. rewrite (get_prop_ok result "hourly_data" Hr), Hdata.
  destruct items as [|item items].
  - cbn. split; [reflexivity|]. split; [reflexivity|].
    split; [intros Hne; now contradiction Hne | discriminate].
  - change (has_items (JArr (item :: items))) with true. cbv beta iota.
    pose proof (slice_last_min 24 (item :: items)) as [Hslice Hlen].
    assert (Hs : forallb wf_hourly (slice_last 24 (item :: items)) = true)
      by (apply forallb_skipn; exact Hall).
    rewrite (hourly_loop _ Hs).
    cbn [fst snd with_hourly hourly_list app].
    split; [reflexivity|]. split; [discriminate|]. split.
    + intros _. rewrite length_map, Hlen. split; [|reflexivity].
      now rewrite <- Hslice.
    + intros H30. unfold slice_last. now rewrite H30.
Qed.

(** Claim C8.  For a time-series response whose sequence of points is not
    empty, the labels of the chart are replaced by the local time strings of
    the points (timestamp in seconds, times 1000), its data by their
    [power_kw] values, and the chart is redrawn with mode 'none'; for an empty
    sequence the chart keeps its labels and data. *)
Theorem chart_update (result : JsVal) (items : list JsVal) (c : Chart) (p : Page) :
  not_nullish result = true ->
  member result "data" = JArr items ->
  forallb not_nullish items = true ->
  powerChart p = Some c ->
  let r := updateChart (Json result) p in
  fst r = Normal tt /\
  (items <> [] ->
   powerChart (snd r)
   = Some {| labels := map point_label items;
             dataset := map (fun item => member item "power_kw") items;
             updates := (updates c ++ ["none"])%list |}) /\
  (items = [] -> powerChart (snd r) = powerChart p).
Proof.
  intros Hr Hdata Hall Hc. cbv zeta.
  unfold updateChart, try_catch, fetch_json, bind, lift, modify, ret, gets.
  cbv beta iota. rewrite (get_prop_ok result "data" Hr), Hdata.
  destruct items as [|item items].
  - cbn. split; [reflexivity|].
    split; [intros Hne; now contradiction Hne | reflexivity].
  - change (has_items (JArr (item :: items))) with true. cbv beta iota.
    unfold js_map.
    rewrite (map_items_ok chartLabel point_label).
    2:{ intros x Hx. unfold chartLabel, point_label.
        rewrite forallb_forall in Hall.
        now rewrite (get_prop_ok x "timestamp" (Hall x Hx)). }
    rewrite (map_items_ok (fun item => get_prop item "power_kw")
                          (fun item => member item "power_kw")).
    2:{ intros x Hx. rewrite forallb_forall in Hall.
        now rewrite (get_prop_ok x "power_kw" (Hall x Hx)). }
    cbv beta iota. cbn [powerChart with_requests]. rewrite Hc.
    cbn. split; [reflexivity|]. split; [reflexivity | discriminate].
Qed.

End HistoryClaims.

Lemma hourly_render_last_24_witness :
  let result := JObj [("hourly_data", JArr thirty_hours)] in
  not_nullish result = true /\
  member result "hourly_data" = JArr thirty_hours /\
  forallb wf_hourly thirty_hours = true /\
  List.length thirty_hours = 30 /\
  hourly_list (snd (@updateHourlyData sample_host (Json result) blank_page))
  = map (@hourly_row sample_host) (skipn 6 thirty_hours).
Proof.
  cbv zeta. do 4 (split; [reflexivity|]).
  pose proof (@hourly_render_last_24 sample_host
                (JObj [("hourly_data", JArr thirty_hours)]) thirty_hours
                blank_page eq_refl eq_refl eq_refl) as Hw.
  cbv zeta in Hw. destruct Hw as (_ & _ & _ & Hw).
  exact (Hw eq_refl).
Defined.

Lemma chart_update_witness :
  let result := JObj [("data", JArr sample_points)] in
  let blank_chart := {| labels := []; dataset := []; updates := [] |} in
  not_nullish result = true /\
  member result "data" = JArr sample_points /\
  forallb not_nullish sample_points = true /\
  powerChart blank_page = Some blank_chart /\
  powerChart (snd (@updateChart sample_host (Json result) blank_page))
  = Some {| labels := map (@point_label sample_host) sample_points;
            dataset := map (fun item => member item "power_kw") sample_points;
            updates := ["none"] |}.
Proof.
  cbv zeta. do 4 (split; [reflexivity|]).
  pose proof (@chart_update sample_host (JObj [("data", JArr sample_points)])
                sample_points {| labels := []; dataset := []; updates := [] |}
                blank_page eq_refl eq_refl eq_refl eq_refl) as Hw.
  cbv zeta in Hw. destruct Hw as (_ & Hw & _).
  apply Hw. discriminate.
Defined.

(** ** The communication log *)

Lemma append_assoc (a b c : string) : (a ++ b) ++ c = a ++ b ++ c.
Proof. induction a as [|x a IH]; simpl; [reflexivity | now rewrite IH]. Qed.

Lemma with_modbus_log_same (p : Page) :
  with_modbus (fun v => set_log (modbus_log v ++ []) v) p = p.
Proof.
  destruct p as [s c h m a co r]. destruct m. unfold with_modbus, set_log.
  simpl. now rewrite app_nil_r.
Qed.

Section LogClaims.
Context `{Host}.

(** With an address the detail line is the join of the fields shown. *)
Lemma logDetail_with_address (log : JsVal) :
  not_nullish log = true ->
  not_nullish (member log "address") = true ->
  (has_items (member log "values") = true ->
   is_array (member log "values") = true) ->
  logDetail log = Normal (join ", " (detail_fields log)).
Proof.
  intros Hl Ha Hv. unfold logDetail, detail_fields.
  repeat (rewrite (get_prop_ok log _ Hl); cbn [cbind]).
  rewrite Ha.
  destruct (has_items (member log "values")) eqn:Hhas.
  - specialize (Hv eq_refl).
    destruct (member log "values") as [| | | | |vals|]; try discriminate.
    cbn [call_join cbind items_of].
    destruct (truthy (member log "quantity")), (truthy (member log "error"));
      cbn [List.concat app join]; rewrite ?append_assoc; reflexivity.
  - cbn [cbind].
    destruct (truthy (member log "quantity")), (truthy (member log "error"));
      cbn [List.concat app join]; rewrite ?append_assoc; reflexivity.
Qed.

(** Records whose entries can be built are shown newest first; no record
    shows the notice. *)
Lemma log_loop (items : list JsVal) (entries : list LogEntryView) :
  map logEntry items = map Normal entries ->
  forall (i : nat) (p : Page),
  forEach logStep items i p
  = (Normal tt,
     with_modbus (fun v => set_log (modbus_log v ++ map LogItem entries)%list v) p).
Proof.
  revert entries. induction items as [|item items IH]; intros [|e entries] Hm i p;
    simpl in Hm; try discriminate.
  - simpl. now rewrite with_modbus_log_same.
  - inversion Hm as [[He Hrest]].
    cbn [forEach]. unfold bind at 1. unfold logStep at 1.
    unfold bind, lift, modify. rewrite He.
    fold (@bind Page unit unit). rewrite (IH entries Hrest (S i)).
    f_equal. rewrite with_modbus_twice. apply with_modbus_ext.
    unfold set_log. cbn. now rewrite <- app_assoc.
Qed.

Lemma log_render_reversed (data : JsVal) (items : list JsVal)
  (entries : list LogEntryView) (p : Page) :
  not_nullish data = true ->
  member data "logs" = JArr items ->
  map logEntry (rev items) = map Normal entries ->
  let r := updateModbusLog (Json data) p in
  fst r = Normal tt /\
  modbus_log (modbus (snd r))
  = match items with
    | [] => [LogNotice no_logs_text]
    | _ => map LogItem entries
    end.
Proof.
  intros Hd Hlogs Hm. cbv zeta.
  unfold updateModbusLog, try_catch, fetch_json, bind, lift, modify, ret.
  cbv beta iota. rewrite (get_prop_ok data "logs" Hd), Hlogs.
  destruct items as [|item items].
  - cbn. split; reflexivity.
  - change (has_items (JArr (item :: items))) with true. cbv beta iota.
    rewrite (log_loop _ entries Hm). cbn. split; reflexivity.
Qed.

(** Claim C2 fails on a record without an address.  For the record
    [log_without_address] (address null, quantity 2) the entry is built, and
    its detail line starts with the separator: it is ", 수량: 2" where the join
    of the fields present is "수량: 2". *)
Theorem detail_without_address_starts_with_separator :
  exists entry,
    logEntry log_without_address = Normal entry /\
    log_detail entry = Some (", 수량: " ++ number_to_string (num_of_Z 2)) /\
    spec_detail log_without_address
    = Some ("수량: " ++ number_to_string (num_of_Z 2)) /\
    log_detail entry <> spec_detail log_without_address.
Proof.
  eexists. split; [reflexivity|]. cbn.
  split; [reflexivity|]. split; [reflexivity|]. discriminate.
Qed.

End LogClaims.

(* ------------------------------------------------------------------ *)
(** ** The model at work *)

Example toFixed_rounds_half_up :
  @toFixed sample_host (S754_finite false 5 (-1)) 0 = "3" /\
  @toFixed sample_host (S754_finite false 1 (-1)) 0 = "1" /\
  @toFixed sample_host (S754_finite true 1 (-10)) 2 = "-0.00" /\
  @toFixed sample_host (S754_zero true) 2 = "0.00" /\
  @toFixed sample_host (num_of_Z 380) 1 = "380.0".
Proof. repeat split. Qed.

Example detail_with_address :
  option_map log_detail
    (match @logEntry sample_host log_with_address with
     | Normal entry => Some entry
     | Throw _ => None
     end)
  = Some (Some "주소: 0, 수량: 2, 값: [10, 20]").
Proof. reflexivity. Qed.

Example second_card_of_sample :
  option_map (fun card => (card_class card, card_title card, pv_voltage card,
                           power_factor card, p_control_selected card))
    (nth_error
       (inverters_grid
          (status (snd (@updateStatus sample_host (num_of_Z 5)
                          (Json sample_snapshot) blank_page)))) 1)
  = Some ("inverter-card off", "INV_002", "600.0", "1.000", "selected").
Proof. reflexivity. Qed.

Example hide_after_show :
  banners (hideModbusAlert
             (@showModbusAlert sample_host (JStr "first") blank_alert)) = [] /\
  modbus_section
    (hideModbusAlert (@showModbusAlert sample_host (JStr "first") blank_alert))
  = modbus_section blank_alert.
Proof. split; reflexivity. Qed.

Example show_without_section :
  let a := {| modbus_section := None; modbusAlertElement := None; next_node := 0 |} in
  banners (@showModbusAlert sample_host (JStr "second")
             (@showModbusAlert sample_host (JStr "first") a)) = [] /\
  option_map node_message
    (modbusAlertElement
       (@showModbusAlert sample_host (JStr "second")
          (@showModbusAlert sample_host (JStr "first") a)))
  = Some "second".
Proof. split; reflexivity. Qed.

(* ------------------------------------------------------------------ *)
(** ** The pollers against each other *)

Lemma preserves_ret {X A} (part : Page -> X) (a : A) : preserves part (ret a).
Proof. intros p. reflexivity. Qed.

Lemma preserves_lift {X A} (part : Page -> X) (c : Completion A) :
  preserves part (lift c).
Proof. intros p. reflexivity. Qed.

Lemma preserves_gets {X A} (part : Page -> X) (f : Page -> A) :
  preserves part (gets f).
Proof. intros p. reflexivity. Qed.

Lemma preserves_modify {X} (part : Page -> X) (f : Page -> Page) :
  (forall p, part (f p) = part p) -> preserves part (modify f).
Proof. intros Hf p. apply Hf. Qed.

Lemma preserves_bind {X A B} (part : Page -> X) (c : M Page A) (k : A -> M Page B) :
  preserves part c -> (forall a, preserves part (k a)) -> preserves part (bind c k).
Proof.
  intros Hc Hk p. unfold bind. specialize (Hc p).
  destruct (c p) as [[a|e] p1]; simpl in *.
  - now rewrite (Hk a p1).
  - exact Hc.
Qed.

Lemma preserves_try_catch {X A} (part : Page -> X) (body : M Page A)
  (handler : JsError -> M Page A) :
  preserves part body -> (forall e, preserves part (handler e)) ->
  preserves part (try_catch body handler).
Proof.
  intros Hb Hh p. unfold try_catch. specialize (Hb p).
  destruct (body p) as [[a|e] p1]; simpl in *.
  - exact Hb.
  - now rewrite (Hh e p1).
Qed.

Lemma preserves_forEach {X A} (part : Page -> X) (f : A -> nat -> M Page unit)
  (items : list A) :
  (forall x i, preserves part (f x i)) ->
  forall i, preserves part (forEach f items i).
Proof.
  intros Hf. induction items as [|x items IH]; intros i; simpl.
  - apply preserves_ret.
  - apply preserves_bind; [apply Hf | intros _; apply IH].
Qed.

(** Walks through a computation, one statement at a time. *)
Ltac frame :=
  repeat first
    [ apply preserves_ret
    | apply preserves_lift
    | apply preserves_gets
    | apply preserves_forEach; intros ? ?
    | apply preserves_try_catch; [ | intros ? ]
    | apply preserves_bind; [ | intros ? ]
    | apply preserves_modify; intros ?; reflexivity
    | match goal with
      | |- preserves _ (if ?b then _ else _) => destruct b
      | |- preserves _ (match ?v with _ => _ end) => destruct v
      end ].

Section Regions.
Context `{Host}.

Lemma try_catch_completes (body : M Page unit) (handler : JsError -> M Page unit)
  (p : Page) :
  (forall e p', fst (handler e p') = Normal tt) ->
  fst (try_catch body handler p) = Normal tt.
Proof.
  intros Hh. unfold try_catch.
  destruct (body p) as [[[]|e] p1]; simpl; [reflexivity | apply Hh].
Qed.

(** X1.  No poller throws: whatever the network answers and whatever the
    parsed payload holds, each of the five polling functions completes
    normally, so an interval that runs it is never interrupted. *)
Theorem pollers_never_throw (now : number) (reply : Reply) (p : Page) :
  fst (updateStatus now reply p) = Normal tt /\
  fst (updateChart reply p) = Normal tt /\
  fst (updateHourlyData reply p) = Normal tt /\
  fst (updateModbusStatus reply p) = Normal tt /\
  fst (updateModbusLog reply p) = Normal tt.
Proof.
  repeat split;
    (apply try_catch_completes; intros e p'; reflexivity).
Qed.

(** X2.  Each poller writes its own region only.  The Status poll leaves the
    chart, the hourly list, the Modbus region and the alert as they were; the
    chart poll leaves everything but the chart; the hourly poll everything
    but the hourly list; the health poll leaves the Status region, the chart,
    the hourly list and the log pane; the log poll leaves everything but the
    log pane.  This holds for every answer of the network. *)
Theorem pollers_own_regions (now : number) (reply : Reply) :
  (preserves powerChart (updateStatus now reply) /\
   preserves hourly_list (updateStatus now reply) /\
   preserves modbus (updateStatus now reply) /\
   preserves alert (updateStatus now reply)) /\
  (preserves status (updateChart reply) /\
   preserves hourly_list (updateChart reply) /\
   preserves modbus (updateChart reply) /\
   preserves alert (updateChart reply)) /\
  (preserves status (updateHourlyData reply) /\
   preserves powerChart (updateHourlyData reply) /\
   preserves modbus (updateHourlyData reply) /\
   preserves alert (updateHourlyData reply)) /\
  (preserves status (updateModbusStatus reply) /\
   preserves powerChart (updateModbusStatus reply) /\
   preserves hourly_list (updateModbusStatus reply) /\
   preserves (fun p => modbus_log (modbus p)) (updateModbusStatus reply)) /\
  (preserves status (updateModbusLog reply) /\
   preserves powerChart (updateModbusLog reply) /\
   preserves hourly_list (updateModbusLog reply) /\
   preserves alert (updateModbusLog reply) /\
   preserves modbus_health (updateModbusLog reply)).
Proof.
  repeat split.
  all: unfold updateStatus, updateUI, updateInverterCards, cardStep, appendCard,
         updateChart, updateHourlyData, hourlyStep, updateModbusStatus,
         updateSlaveStats, set_indicator, set_title, updateModbusLog, logStep,
         fetch_json, console_error.
  all: destruct reply; frame.
Qed.

End Regions.

(* ------------------------------------------------------------------ *)
(** ** The chart and the hourly list on any answer *)

Lemma map_items_inv {A B} (f : A -> Completion B) (g : A -> B)
  (items : list A) (ys : list B) :
  (forall x y, f x = Normal y -> y = g x) ->
  map_items f items = Normal ys -> ys = map g items.
Proof.
  intros Hf. revert ys. induction items as [|x items IH]; intros ys Hm;
    simpl in Hm.
  - now inversion Hm.
  - destruct (f x) as [y|e] eqn:Hx; [|discriminate].
    destruct (map_items f items) as [ys'|e]; [|discriminate].
    inversion Hm; subst. simpl. f_equal; [now apply Hf | now apply IH].
Qed.

Section HistoryEdges.
Context `{Host}.

Lemma chartLabel_inv (x : JsVal) (y : string) :
  chartLabel x = Normal y -> y = point_label x.
Proof.
  unfold chartLabel, point_label.
  destruct x; simpl; intros Hx; try discriminate; now inversion Hx.
Qed.

Lemma power_kw_inv (x y : JsVal) :
  get_prop x "power_kw" = Normal y -> y = member x "power_kw".
Proof. destruct x; simpl; intros Hx; try discriminate; now inversion Hx. Qed.

(** X3.  The chart is replaced as a whole or not at all.  After a chart poll
    the chart is either exactly what it was, or it holds one label and one
    value for every point of a non-empty answer and one more redraw with mode
    'none'; a failure half-way (a null point, a missing chart, a body that is
    no array) never leaves labels without their data. *)
Theorem chart_replaced_or_kept (reply : Reply) (p : Page) :
  let c' := powerChart (snd (updateChart reply p)) in
  c' = powerChart p \/
  exists result items c,
    reply = Json result /\ member result "data" = JArr items /\ items <> [] /\
    powerChart p = Some c /\
    c' = Some {| labels := map point_label items;
                 dataset := map (fun item => member item "power_kw") items;
                 updates := (updates c ++ ["none"])%list |}.
Proof.
  cbv zeta.
  unfold updateChart, try_catch, fetch_json, bind, lift, modify, ret, gets,
    console_error.
  cbv beta iota.
  destruct reply as [e|e|result]; try (left; reflexivity).
  cbv beta iota.
  destruct (not_nullish result) eqn:Hr;
    [| destruct result; try discriminate; left; reflexivity].
  rewrite (get_prop_ok result "data" Hr).
  destruct (has_items (member result "data")) eqn:Hhas;
    [| left; reflexivity].
  destruct (member result "data") as [| | | | |items|] eqn:Hdata;
    try (left; reflexivity).
  unfold js_map.
  destruct (map_items chartLabel items) as [ls|e] eqn:Hls;
    [| left; reflexivity].
  destruct (map_items (fun item => get_prop item "power_kw") items)
    as [ds|e] eqn:Hds; [| left; reflexivity].
  cbn [powerChart with_requests].
  destruct (powerChart p) as [c|] eqn:Hc; [| left; cbn; now rewrite Hc].
  right. exists result, items, c.
  split; [reflexivity|]. split; [exact Hdata|]. split.
  - intros Hnil. subst items. discriminate.
  - split; [reflexivity|]. cbn.
    rewrite (map_items_inv chartLabel point_label items ls chartLabel_inv Hls).
    rewrite (map_items_inv _ (fun item => member item "power_kw") items ds
               power_kw_inv Hds).
    reflexivity.
Qed.

(** X4.  What the hourly list shows when there is nothing to show.  A
    transport failure leaves the list as it was.  A parsed object whose
    [hourly_data] is missing, null or empty shows the "no data" notice alone.
    A parsed body that is null leaves the list empty, without the notice: the
    list is cleared before the body is looked at. *)
Theorem hourly_without_data (p : Page) :
  (forall reply, is_transport_failure reply = true ->
     hourly_list (snd (updateHourlyData reply p)) = hourly_list p) /\
  (forall result,
     not_nullish result = true ->
     has_items (member result "hourly_data") = false ->
     hourly_list (snd (updateHourlyData (Json result) p))
     = [HourlyNotice no_data_text]) /\
  (forall result,
     not_nullish result = false ->
     hourly_list (snd (updateHourlyData (Json result) p)) = []).
Proof.
  split; [|split].
  - intros reply Hf. destruct reply; try discriminate; reflexivity.
  - intros result Hr Hhas.
    unfold updateHourlyData, try_catch, fetch_json, bind, lift, modify, ret.
    cbv beta iota. rewrite (get_prop_ok result "hourly_data" Hr), Hhas.
    reflexivity.
  - intros result Hr. destruct result; try discriminate; reflexivity.
Qed.

Lemma hourlyStep_bad (bad : JsVal) (i : nat) (p : Page) :
  wf_hourly bad = false -> exists e, hourlyStep bad i p = (Throw e, p).
Proof.
  unfold wf_hourly, hourlyStep, bind, lift, modify, fixed_field. intros Hbad.
  destruct (not_nullish bad) eqn:Hn.
  - rewrite !(get_prop_ok bad _ Hn). cbn [cbind].
    simpl in Hbad.
    destruct (member bad "accumulated_kwh"); try discriminate;
      eexists; reflexivity.
  - destruct bad; try discriminate; eexists; reflexivity.
Qed.

Lemma hourly_loop_stops (good rest : list JsVal) (bad : JsVal) :
  forallb wf_hourly good = true -> wf_hourly bad = false ->
  forall (i : nat) (p : Page),
  exists e,
    forEach hourlyStep (good ++ bad :: rest) i p
    = (Throw e, with_hourly (fun l => l ++ map hourly_row good)%list p).
Proof.
  intros Hgood Hbad.
  induction good as [|item good IH]; intros i p.
  - destruct (hourlyStep_bad bad i p Hbad) as [e He].
    exists e. cbn [app forEach map]. unfold bind. rewrite He.
    now rewrite with_hourly_same.
  - simpl in Hgood. apply andb_prop in Hgood. destruct Hgood as [Hitem Hgood].
    pose proof (hourly_loop [item]) as Hone. simpl in Hone.
    rewrite Hitem in Hone. specialize (Hone eq_refl i p).
    unfold bind, ret in Hone.
    destruct (hourlyStep item i p) as [[[]|e0] p1] eqn:Hstep;
      [|discriminate].
    inversion Hone as [Hp1].
    destruct (IH Hgood (S i) p1) as [e He].
    exists e. cbn [app forEach]. unfold bind. rewrite Hstep, He, Hp1.
    f_equal. unfold with_hourly. simpl. f_equal.
    now rewrite <- app_assoc.
Qed.

(** X5.  A record the render cannot print stops the hourly list there.  When
    one of the records shown has no numeric [accumulated_kwh] (or is null),
    the rows of the records before it stay in the list, no row follows, no
    notice is shown, and one error is logged. *)
Theorem hourly_stops_at_bad_record (result : JsVal) (good rest : list JsVal)
  (bad : JsVal) (p : Page) :
  not_nullish result = true ->
  member result "hourly_data" = JArr (good ++ bad :: rest) ->
  List.length (good ++ bad :: rest) <= 24 ->
  forallb wf_hourly good = true ->
  wf_hourly bad = false ->
  let r := updateHourlyData (Json result) p in
  fst r = Normal tt /\
  hourly_list (snd r) = map hourly_row good /\
  exists e,
    console (snd r)
    = (console p ++ [ConsoleError "시간별 데이터 업데이트 오류:" e])%list.
Proof.
  intros Hr Hdata Hlen Hgood Hbad. cbv zeta.
  unfold updateHourlyData, try_catch, fetch_json, bind, lift, modify, ret.
  cbv beta iota. rewrite (get_prop_ok result "hourly_data" Hr), Hdata.
  assert (Hhas : has_items (JArr (good ++ bad :: rest)) = true)
    by (destruct good; reflexivity).
  rewrite Hhas. cbv beta iota.
  assert (Hslice : slice_last 24 (good ++ bad :: rest) = (good ++ bad :: rest)%list).
  { unfold slice_last.
    replace (List.length (good ++ bad :: rest) - 24) with 0 by lia.
    reflexivity. }
  rewrite Hslice.
  match goal with
  | |- context [forEach hourlyStep _ 0 ?q] =>
      destruct (hourly_loop_stops good rest bad Hgood Hbad 0 q) as [e He]
  end.
  unfold bind in He. rewrite He. cbn.
  split; [reflexivity|]. split; [reflexivity|]. now exists e.
Qed.

End HistoryEdges.

(* ------------------------------------------------------------------ *)
(** ** Log entries *)

Section LogEntries.
Context `{Host}.

Lemma logDetail_line (log : JsVal) :
  not_nullish log = true ->
  (negb (has_items (member log "values")) || is_array (member log "values")
   = true)%bool ->
  logDetail log
  = Normal (match detail_line log with Some d => d | None => "" end).
Proof.
  intros Hl Hv. unfold logDetail, detail_line, detail_fields.
  repeat (rewrite (get_prop_ok log _ Hl); cbn [cbind]).
  destruct (has_items (member log "values")) eqn:Hhas.
  - simpl in Hv.
    destruct (member log "values") as [| | | | |vals|]; try discriminate.
    cbn [call_join cbind items_of].
    destruct (not_nullish (member log "address")),
             (truthy (member log "quantity")), (truthy (member log "error"));
      cbn [List.concat app join]; rewrite ?append_assoc; reflexivity.
  - cbn [cbind].
    destruct (not_nullish (member log "address")),
             (truthy (member log "quantity")), (truthy (member log "error"));
      cbn [List.concat app join]; rewrite ?append_assoc; reflexivity.
Qed.

Lemma detail_line_not_empty (log : JsVal) (d : string) :
  detail_line log = Some d -> String.eqb d "" = false.
Proof.
  unfold detail_line, detail_fields.
  destruct (not_nullish (member log "address")),
           (truthy (member log "quantity")),
           (has_items (member log "values")),
           (truthy (member log "error"));
    cbn [List.concat app join]; intros Hd;
    try discriminate; inversion Hd; reflexivity.
Qed.

Lemma logEntry_ok (log : JsVal) :
  wf_log log = true -> logEntry log = Normal (entry_of log).
Proof.
  unfold wf_log. intros Hw.
  apply andb_prop in Hw. destruct Hw as [Hw Hv].
  apply andb_prop in Hw. destruct Hw as [Hl Hs].
  unfold logEntry, entry_of.
  repeat (rewrite (get_prop_ok log _ Hl); cbn [cbind]).
  rewrite (logDetail_line log Hl Hv). cbn [cbind].
  destruct (member log "event_type") as [| | | |s| |] eqn:Het; try discriminate.
  cbn [call_toUpperCase cbind str_of]. f_equal. f_equal.
  destruct (detail_line log) as [d|] eqn:Hd.
  - now rewrite (detail_line_not_empty log d Hd).
  - reflexivity.
Qed.

(** X6.  The detail line of a log entry, for every LogEntry record.  It is
    left out exactly when no optional field is shown; when the address is
    shown it is the fields shown joined by ", "; when the address is absent
    and another field is shown it is that join after a leading ", ". *)
Theorem log_entry_detail (log : JsVal) :
  wf_log log = true ->
  exists entry,
    logEntry log = Normal entry /\
    (log_detail entry = None <-> detail_fields log = []) /\
    (not_nullish (member log "address") = true ->
     log_detail entry = spec_detail log) /\
    (not_nullish (member log "address") = false -> detail_fields log <> [] ->
     log_detail entry = Some (", " ++ join ", " (detail_fields log))).
Proof.
  intros Hw. exists (entry_of log). split; [now apply logEntry_ok|].
  cbn [entry_of log_detail]. unfold detail_line, spec_detail.
  destruct (detail_fields log) as [|f fs] eqn:Hf.
  - split; [split; reflexivity|]. split; [reflexivity|].
    intros _ Hne. now contradiction Hne.
  - split; [split; discriminate|]. split.
    + intros Ha. now rewrite Ha.
    + intros Ha _. now rewrite Ha.
Qed.




End LogEntries.

(* ------------------------------------------------------------------ *)
(** ** Slave statistics *)

Section SlaveStats.
Context `{Host}.

Lemma slaveCard_card (slaveId : string) (stat : JsVal) :
  not_nullish stat = true ->
  slaveCard slaveId stat = Normal (slave_card_of (slaveId, stat)).
Proof.
  intros Hs. unfold slaveCard, stat_count, slave_card_of, counter.
  repeat (rewrite (get_prop_ok stat _ Hs); cbn [cbind]).
  reflexivity.
Qed.

Lemma slaveCard_null (slaveId : string) (stat : JsVal) :
  not_nullish stat = false ->
  slaveCard slaveId stat = Throw (TypeError stat "total_requests").
Proof. destruct stat; intros Hs; try discriminate; reflexivity. Qed.

(** The loop of [updateSlaveStats] over entries of which the first that is
    null or undefined, if any, is [bad]. *)
Lemma slave_cards_loop (good : list (string * JsVal)) (tail : list (string * JsVal)) :
  forallb (fun entry => not_nullish (snd entry)) good = true ->
  match tail with
  | [] => True
  | entry :: _ => not_nullish (snd entry) = false
  end ->
  forall (i : nat) (p : Page),
    forEach (fun (entry : string * JsVal) (_ : nat) =>
               card <- lift (slaveCard (fst entry) (snd entry)) ;;
               modify (with_modbus (fun v =>
                 set_slaves_grid (modbus_slaves_grid v ++ [card])%list v)))
            (good ++ tail) i p
    = (match tail with
       | [] => Normal tt
       | entry :: _ => Throw (TypeError (snd entry) "total_requests")
       end,
       with_modbus (fun v =>
         set_slaves_grid
           (modbus_slaves_grid v ++ map slave_card_of good)%list v) p).
Proof.
  intros Hgood Htail.
  induction good as [|[slaveId stat] good IH]; intros i p.
  - cbn [app map]. destruct tail as [|[k bad] tail].
    + simpl. now rewrite with_modbus_same.
    + cbn [forEach fst snd] in *. unfold bind, lift, modify.
      rewrite (slaveCard_null k bad Htail). now rewrite with_modbus_same.
  - simpl in Hgood. apply andb_prop in Hgood. destruct Hgood as [Hs Hgood].
    cbn [app forEach fst snd map]. unfold bind at 1. unfold bind at 1.
    unfold lift at 1. rewrite (slaveCard_card slaveId stat Hs).
    unfold modify at 1. rewrite (IH Hgood (S i)). f_equal.
    rewrite with_modbus_twice. apply with_modbus_ext.
    unfold set_slaves_grid. cbn. now rewrite <- app_assoc.
Qed.


(** X9.  A null statistics entry turns a healthy cycle into an alert.  When
    the payload is available and carries its [status], the indicator and the
    banner are first set as the decision tree says; the null entry then
    throws inside the same [try], so the cycle ends with the generic query
    error shown on top of whatever the branch did to the banner, although the
    indicator keeps the text of the branch. *)
Theorem null_stat_ends_in_query_alert (data : JsVal)
  (good rest : list (string * JsVal)) (k : string) (bad : JsVal) (p : Page) :
  not_nullish data = true ->
  truthy (member data "available") = true ->
  not_nullish (member data "status") = true ->
  object_entries
    (js_or (member (member data "status") "communication_stats") (JObj []))
  = (good ++ (k, bad) :: rest)%list ->
  forallb (fun entry => not_nullish (snd entry)) good = true ->
  not_nullish bad = false ->
  let r := updateModbusStatus (Json data) p in
  let b := branch_of data in
  fst r = Normal tt /\
  textContent (modbus_status (modbus (snd r))) = branch_text b /\
  className (modbus_status (modbus (snd r))) = branch_class b /\
  modbus_slaves_grid (modbus (snd r)) = map slave_card_of good /\
  alert (snd r)
  = showModbusAlert (JStr query_error_text)
      (apply_alert (branch_alert b data) (alert p)).
Proof.
  intros Hd Hav Hst Hentries Hgood Hbad. cbv zeta.
  assert (Hstats : forall q,
    updateSlaveStats
      (js_or (member (member data "status") "communication_stats") (JObj [])) q
    = (Throw (TypeError bad "total_requests"),
       with_modbus (set_slaves_grid (map slave_card_of good)) q)).
  { intros q. unfold updateSlaveStats. rewrite bind_modify, Hentries.
    rewrite (slave_cards_loop good ((k, bad) :: rest) Hgood Hbad).
    reflexivity. }
  unfold branch_of, updateModbusStatus, try_catch, fetch_json, set_indicator,
    set_title, bind, lift, modify, ret, console_error.
  cbv beta iota.
  set (p1 := with_requests _ p).
  rewrite (get_prop_ok data "available" Hd). cbv beta iota. rewrite Hav.
  repeat (rewrite ?(get_prop_ok data _ Hd),
                  ?(get_prop_ok (member data "status") _ Hst);
          cbv beta iota).
  destruct (truthy (member data "actually_connected")) eqn:Hac;
    destruct (truthy (member data "port_available")) eqn:Hpa;
    destruct (truthy (member data "server_running")) eqn:Hsr;
    destruct (truthy (member (member data "status") "is_running")) eqn:Hir;
    cbn [negb andb]; cbv beta iota; rewrite Hstats;
    (do 4 (split; [reflexivity|]); reflexivity).
Qed.

End SlaveStats.

(* ------------------------------------------------------------------ *)
(** ** The requests of a command *)

Section CommandRequests.
Context `{Host}.
Variable form : string -> option string.
Variable refresh_now : number.
Variable refresh_reply : Reply.




End CommandRequests.


(* ------------------------------------------------------------------ *)
(** ** A payload without its arrays, the banner round trip, the clear button *)

Section Partial.
Context `{Host}.

(** X11.  A snapshot without its inverter array blanks the grid.  When the
    summary of a parsed payload is well-formed but [inverters] is not an
    array, the Status poll rewrites the whole summary, removes every card
    from the grid, and only then fails on [forEach]; the error is logged and
    the grid stays empty until a later poll succeeds. *)
Theorem summary_without_inverters (now : number) (data : JsVal) (p : Page) :
  not_nullish data = true ->
  has_numbers (member data "total_power")
    ["total_active_power_kw"; "utilization_percent"; "total_reactive_power_kvar"]
  = true ->
  is_num (member data "total_capacity_mva") = true ->
  is_array (member data "inverters") = false ->
  let r := updateStatus now (Json data) p in
  fst r = Normal tt /\
  inverters_grid (status (snd r)) = [] /\
  plant_id (status (snd r)) = "발전소: " ++ to_string (member data "plant_id") /\
  total_power (status (snd r))
  = reading (member data "total_power") "total_active_power_kw" 2 /\
  rated_capacity (status (snd r)) = reading data "total_capacity_mva" 2 /\
  console (snd r)
  = (console p ++
     [ConsoleError "상태 업데이트 오류:"
        (TypeError (member data "inverters") "forEach")])%list.
Proof.
  intros Hd Hnums Hcap Harr. cbv zeta.
  unfold has_numbers in Hnums. simpl forallb in Hnums.
  repeat (apply andb_prop in Hnums; destruct Hnums as [? Hnums]).
  unfold updateStatus, try_catch, fetch_json, updateUI, updateInverterCards,
    bind, lift, modify, ret, console_error.
  cbv beta iota.
  repeat (rewrite ?(get_prop_ok data _ Hd); cbv beta iota).
  repeat (rewrite fixed_field_ok by assumption; cbv beta iota).
  destruct (member data "inverters"); try discriminate;
    cbn; repeat split; reflexivity.
Qed.

Lemma filter_keeps_others (children : list Node) (id : nat) :
  (forall n, In n children -> node_id n < id) ->
  filter (fun c => negb (Nat.eqb (node_id c) id)) children = children.
Proof.
  induction children as [|n children IH]; intros Hlt; simpl; [reflexivity|].
  assert (Hn : Nat.eqb (node_id n) id = false).
  { apply Nat.eqb_neq. pose proof (Hlt n (or_introl eq_refl)). lia. }
  rewrite Hn. simpl. f_equal. apply IH. intros m Hm. apply Hlt. now right.
Qed.

(** X12.  Showing the alert and hiding it again restores the section.  On a
    page with no banner in the slot, whose section holds only elements
    created before, the section has after a show followed by a hide exactly
    the children it had, in their order, and the slot is empty again; hiding
    twice is hiding once. *)
Theorem show_then_hide_restores (message : JsVal) (a : Alert) :
  modbusAlertElement a = None ->
  (forall children n,
     modbus_section a = Some children -> In n children ->
     node_id n < next_node a) ->
  modbus_section (hideModbusAlert (showModbusAlert message a)) = modbus_section a /\
  modbusAlertElement (hideModbusAlert (showModbusAlert message a)) = None /\
  hideModbusAlert (hideModbusAlert (showModbusAlert message a))
  = hideModbusAlert (showModbusAlert message a).
Proof.
  intros Hslot Hfresh. unfold showModbusAlert, hideModbusAlert.
  rewrite Hslot. cbn.
  destruct (modbus_section a) as [children|] eqn:Hsec; cbn.
  - rewrite Nat.eqb_refl. cbn.
    rewrite (filter_keeps_others children (next_node a)
               (fun n => Hfresh children n eq_refl)).
    repeat split.
  - repeat split.
Qed.

(** X13.  Clearing the log is cosmetic.  After a click on the clear button
    the pane shows the "cleared" notice; the next log poll that gets a parsed
    answer renders exactly what it would have rendered without the click,
    and a poll that fails at the transport level leaves the notice. *)
Theorem clear_log_is_cosmetic (p : Page) :
  modbus_log (modbus (clearLog p)) = [LogNotice cleared_text] /\
  (forall data,
     snd (updateModbusLog (Json data) (clearLog p))
     = snd (updateModbusLog (Json data) p)) /\
  (forall reply, is_transport_failure reply = true ->
     modbus_log (modbus (snd (updateModbusLog reply (clearLog p))))
     = [LogNotice cleared_text]).
Proof.
  split; [reflexivity|]. split.
  - intros data. reflexivity.
  - intros reply Hf. destruct reply; try discriminate; reflexivity.
Qed.

End Partial.

(* ------------------------------------------------------------------ *)
(** ** Intervals *)

Lemma filter_filter_keep {A} (f g : A -> bool) (l : list A) :
  (forall x, In x l -> f x = true -> g x = true) ->
  filter f (filter g l) = filter f l.
Proof.
  induction l as [|x l IH]; intros Hfg; simpl; [reflexivity|].
  assert (IH' : filter f (filter g l) = filter f l)
    by (apply IH; intros y Hy; apply Hfg; now right).
  destruct (g x) eqn:Hg; simpl.
  - now rewrite IH'.
  - destruct (f x) eqn:Hf; [|exact IH'].
    rewrite (Hfg x (or_introl eq_refl) Hf) in Hg. discriminate.
Qed.

Lemma timers_of_filter (task : Task) (t : Timers) :
  timers_of task t = filter (is_task task) (active t).
Proof. reflexivity. Qed.

(** The Status intervals are gone once the handle was cleared. *)
Lemma status_cleared (t : Timers) (k : nat) :
  timers_inv t -> updateInterval t = Some (S k) ->
  filter (is_task StatusTask)
    (filter (fun tm => negb (Nat.eqb (timer_id tm) (S k))) (active t)) = [].
Proof.
  intros (_ & _ & Hown & _) Hh. rewrite filter_filter_comm.
  rewrite timers_of_filter in Hown.
  destruct (filter (is_task StatusTask) (active t)) as [|tm [|tm' l]]; simpl.
  - reflexivity.
  - rewrite Hh in Hown. inversion Hown as [Hid]. now rewrite Nat.eqb_refl.
  - contradiction.
Qed.

Lemma status_absent (t : Timers) :
  timers_inv t ->
  match updateInterval t with Some (S _) => False | _ => True end ->
  filter (is_task StatusTask) (active t) = [].
Proof.
  intros (_ & Hids & Hown & _) Hh. rewrite timers_of_filter in Hown.
  destruct (filter (is_task StatusTask) (active t)) as [|tm [|tm' l]] eqn:Hf.
  - reflexivity.
  - assert (Hin : In tm (active t)).
    { assert (Hin' : In tm (filter (is_task StatusTask) (active t)))
        by (rewrite Hf; now left).
      now apply filter_In in Hin'. }
    rewrite Hown in Hh. pose proof (Hids tm Hin) as Hpos.
    destruct (timer_id tm); [lia | contradiction].
  - contradiction.
Qed.

(** Clearing the Status handle removes no interval of another task. *)
Lemma others_kept (task : Task) (t : Timers) (k : nat) :
  timers_inv t -> updateInterval t = Some (S k) -> task <> StatusTask ->
  filter (is_task task)
    (filter (fun tm => negb (Nat.eqb (timer_id tm) (S k))) (active t))
  = filter (is_task task) (active t).
Proof.
  intros (_ & _ & _ & Hhandle) Hh Htask. apply filter_filter_keep.
  intros tm Hin Hf.
  destruct (Nat.eqb (timer_id tm) (S k)) eqn:Hid; [|reflexivity].
  apply Nat.eqb_eq in Hid.
  assert (Hs : timer_task tm = StatusTask)
    by (apply Hhandle; [exact Hin | now rewrite Hh, Hid]).
  unfold is_task in Hf. rewrite Hs in Hf.
  destruct task; try discriminate. now contradiction Htask.
Qed.

Lemma startAutoUpdate_step (t : Timers) :
  timers_inv t ->
  timers_inv (startAutoUpdate t) /\
  timers_of StatusTask (startAutoUpdate t)
  = [{| timer_id := next_timer t; timer_task := StatusTask;
        timer_ms := UPDATE_INTERVAL_MS |}] /\
  updateInterval (startAutoUpdate t) = Some (next_timer t) /\
  (forall task, task <> StatusTask ->
     timers_of task (startAutoUpdate t) = timers_of task t).
Proof.
  intros Hinv. pose proof Hinv as (Hnext & Hids & Hown & Hhandle).
  assert (Hstatus :
    timers_of StatusTask (startAutoUpdate t)
    = [{| timer_id := next_timer t; timer_task := StatusTask;
          timer_ms := UPDATE_INTERVAL_MS |}]).
  { unfold startAutoUpdate. rewrite timers_of_filter.
    destruct (updateInterval t) as [[|k]|] eqn:Hh; cbn; rewrite filter_app.
    - rewrite status_absent; [reflexivity | exact Hinv | now rewrite Hh].
    - rewrite (status_cleared t k Hinv Hh). reflexivity.
    - rewrite status_absent; [reflexivity | exact Hinv | now rewrite Hh]. }
  assert (Hothers : forall task, task <> StatusTask ->
            timers_of task (startAutoUpdate t) = timers_of task t).
  { intros task Htask. unfold startAutoUpdate. rewrite !timers_of_filter.
    destruct (updateInterval t) as [[|k]|] eqn:Hh; cbn; rewrite filter_app;
      cbn; rewrite ?(others_kept task t k Hinv Hh Htask);
      (destruct task; [now contradiction Htask | |]); cbn;
      now rewrite app_nil_r. }
  assert (Hactive : forall tm, In tm (active (startAutoUpdate t)) ->
            In tm (active t) \/
            tm = {| timer_id := next_timer t; timer_task := StatusTask;
                    timer_ms := UPDATE_INTERVAL_MS |}).
  { intros tm. unfold startAutoUpdate.
    destruct (updateInterval t) as [[|k]|]; cbn; intros Hin;
      apply in_app_or in Hin; destruct Hin as [Hin|[Hin|[]]];
      try (right; now symmetry);
      try (left; exact Hin).
    left. now apply filter_In in Hin. }
  assert (Hn : next_timer (startAutoUpdate t) = S (next_timer t)).
  { unfold startAutoUpdate. destruct (updateInterval t) as [[|k]|]; reflexivity. }
  assert (Hu : updateInterval (startAutoUpdate t) = Some (next_timer t)).
  { unfold startAutoUpdate. destruct (updateInterval t) as [[|k]|]; reflexivity. }
  split; [|split; [exact Hstatus | split; [exact Hu | exact Hothers]]].
  unfold timers_inv. rewrite Hn, Hstatus, Hu. split; [lia|]. split; [|split].
  - intros tm Hin. destruct (Hactive tm Hin) as [Hold|Hnew].
    + pose proof (Hids tm Hold). lia.
    + subst tm. cbn. lia.
  - reflexivity.
  - intros tm Hin Hid. destruct (Hactive tm Hin) as [Hold|Hnew].
    + pose proof (Hids tm Hold). inversion Hid. lia.
    + now subst tm.
Qed.

(** X14.  Restarting the Status updates never leaves two Status intervals.
    In a window whose Status intervals are the one [updateInterval] holds,
    after any number of calls of [startAutoUpdate] exactly one Status
    interval runs, every 1000 ms, its handle is in [updateInterval], and the
    intervals of the chart and of the Modbus poller are the ones that ran
    before. *)
Theorem one_status_interval (t : Timers) (n : nat) :
  timers_inv t ->
  let t' := Nat.iter (S n) startAutoUpdate t in
  timers_inv t' /\
  (exists tm,
     timers_of StatusTask t' = [tm] /\ timer_ms tm = 1000 /\
     updateInterval t' = Some (timer_id tm)) /\
  timers_of ChartTask t' = timers_of ChartTask t /\
  timers_of ModbusTask t' = timers_of ModbusTask t.
Proof.
  intros Hinv. cbv zeta. induction n as [|n IH].
  - cbn [Nat.iter nat_rect].
    destruct (startAutoUpdate_step t Hinv) as (Hi & Hs & Hu & Ho).
    split; [exact Hi|]. split.
    + eexists. split; [exact Hs|]. split; [reflexivity | exact Hu].
    + split; apply Ho; discriminate.
  - destruct IH as (Hi' & _ & Hc & Hm).
    change (Nat.iter (S (S n)) startAutoUpdate t)
      with (startAutoUpdate (Nat.iter (S n) startAutoUpdate t)).
    destruct (startAutoUpdate_step _ Hi') as (Hi & Hs & Hu & Ho).
    split; [exact Hi|]. split.
    + eexists. split; [exact Hs|]. split; [reflexivity | exact Hu].
    + split.
      * rewrite Ho by discriminate. exact Hc.
      * rewrite Ho by discriminate. exact Hm.
Qed.

Lemma one_status_interval_witness :
  timers_inv fresh_timers /\
  List.length (timers_of StatusTask (Nat.iter 3 startAutoUpdate fresh_timers)) = 1.
Proof.
  assert (Hinv : timers_inv fresh_timers).
  { unfold timers_inv, fresh_timers. simpl. repeat split; try lia;
      intros tm []. }
  split; [exact Hinv|].
  pose proof (one_status_interval fresh_timers 2 Hinv) as Hw.
  cbv zeta in Hw. destruct Hw as (_ & (tm & Hs & _) & _).
  now rewrite Hs.
Defined.

(* ------------------------------------------------------------------ *)
(** ** Start-up *)

Section StartupClaims.
Context `{Host}.

Lemma poll_requests (method url : string) (body : option JsVal) (reply : Reply)
  (k : JsVal -> M Page unit) (h : JsError -> M Page unit) (p : Page) :
  (forall v, preserves requests (k v)) ->
  (forall e, preserves requests (h e)) ->
  requests (snd (try_catch (bind (fetch_json method url body reply) k) h p))
  = (requests p ++
     [{| req_method := method; req_url := url; req_body := body |}])%list.
Proof.
  intros Hk Hh. unfold try_catch, fetch_json, bind, modify, ret, lift.
  cbv beta iota. set (p1 := with_requests _ p).
  destruct reply as [e|e|v]; cbv beta iota.
  - now rewrite (Hh e p1).
  - now rewrite (Hh e p1).
  - pose proof (Hk v p1) as Hkv.
    destruct (k v p1) as [[[]|e] p2]; simpl in *.
    + exact Hkv.
    + now rewrite (Hh e p2), Hkv.
Qed.

Lemma poller_requests (now : number) (reply : Reply) (p : Page) :
  requests (snd (updateStatus now reply p)) = (requests p ++ [get "/api/status"])%list /\
  requests (snd (updateChart reply p)) = (requests p ++ [get "/api/timeseries"])%list /\
  requests (snd (updateHourlyData reply p)) = (requests p ++ [get "/api/hourly"])%list /\
  requests (snd (updateModbusStatus reply p))
  = (requests p ++ [get "/api/modbus/status"])%list /\
  requests (snd (updateModbusLog reply p))
  = (requests p ++ [get "/api/modbus/log?limit=20"])%list.
Proof.
  repeat split.
  all: unfold updateStatus, updateChart, updateHourlyData, updateModbusStatus,
         updateModbusLog.
  all: apply poll_requests; intros ?.
  all: unfold updateUI, updateInverterCards, cardStep, appendCard, hourlyStep,
         updateSlaveStats, set_indicator, set_title, logStep, console_error.
  all: frame.
Qed.

(** A poller run in the window: it completes and touches the page only. *)
Lemma on_page_poll (m : M Page unit) (c : Client) :
  fst (m (page c)) = Normal tt ->
  on_page m c = (Normal tt, with_page (fun _ => snd (m (page c))) c).
Proof.
  intros Hm. unfold on_page. destruct (m (page c)) as [r p']. simpl in *.
  now subst r.
Qed.

Variable present : string -> bool.
Variable now : number.
Variable replies : Replies.

(** X15.  Loading a page that has the chart canvas and the six buttons
    starts everything once: the handler completes, six click listeners are
    registered, three intervals run (Status every 1000 ms, chart and Modbus
    every 2000 ms), and five requests are issued, one per endpoint, the
    Status request last.  This holds whatever the network answers. *)
Theorem startup_starts_everything :
  forallb present startup_ids = true ->
  let r := onDOMContentLoaded present now replies fresh_client in
  fst r = Normal tt /\
  map (fun tm => (timer_task tm, timer_ms tm)) (active (timers (snd r)))
  = [(StatusTask, 1000); (ChartTask, 2000); (ModbusTask, 2000)] /\
  map req_url (requests (page (snd r)))
  = ["/api/timeseries"; "/api/hourly"; "/api/modbus/status";
     "/api/modbus/log?limit=20"; "/api/status"] /\
  map fst (listeners (snd r))
  = ["btn-all-on"; "btn-all-off"; "btn-set-mode-all"; "btn-set-p-control-all";
     "btn-set-irradiance"; "btn-set-temperature"].
Proof.
  unfold startup_ids. simpl forallb. intros Hall.
  repeat (apply andb_prop in Hall; destruct Hall as [? Hall]).
  cbv zeta.
  unfold onDOMContentLoaded, initializeChart, initializeEventListeners,
    addClickListener, startChartUpdate, startModbusUpdate, loadInitialData.
  repeat match goal with
         | Hp : present _ = true |- _ => rewrite Hp; clear Hp
         end.
  unfold bind. cbn [on_page modify page fresh_client].
  unfold modify.
  repeat (rewrite on_page_poll
            by (apply try_catch_completes; intros e p'; reflexivity);
          cbv beta iota).
  cbn [fst snd timers listeners page with_page with_timers with_listeners
       modify].
  split; [reflexivity|]. split; [reflexivity|]. split; [|reflexivity].
  rewrite (proj1 (poller_requests _ _ _)).
  rewrite (proj2 (proj2 (proj2 (proj2 (poller_requests now _ _))))).
  rewrite (proj1 (proj2 (proj2 (proj2 (poller_requests now _ _))))).
  rewrite (proj1 (proj2 (proj2 (poller_requests now _ _)))).
  rewrite (proj1 (proj2 (poller_requests now _ _))).
  reflexivity.
Qed.

(** X16.  A page that lacks the chart canvas or one of the six buttons
    starts nothing.  The handler throws the TypeError of the missing element
    before it reaches the timers: no interval is started, no request is
    issued, and nothing is rendered until the page is reloaded. *)
Theorem startup_needs_every_element (c : Client) :
  forallb present startup_ids = false ->
  let r := onDOMContentLoaded present now replies c in
  (exists e, fst r = Throw e /\ err_name e = "TypeError") /\
  timers (snd r) = timers c /\
  requests (page (snd r)) = requests (page c) /\
  status (page (snd r)) = status (page c) /\
  modbus (page (snd r)) = modbus (page c).
Proof.
  unfold startup_ids. simpl forallb. cbv zeta.
  unfold onDOMContentLoaded, initializeChart, initializeEventListeners,
    addClickListener.
  repeat match goal with
         | |- context [present ?id] => destruct (present id)
         end;
    cbn [andb]; intros Hall; try discriminate;
    unfold bind, lift, modify, on_page; cbv beta iota;
    (split; [eexists; split; reflexivity | repeat split]).
Qed.

Lemma startModbusUpdate_step (rs : Replies) (c : Client) :
  fst (startModbusUpdate rs c) = Normal tt /\
  timers (snd (startModbusUpdate rs c))
  = snd (setInterval ModbusTask 2000 (timers c)).
Proof.
  unfold startModbusUpdate, bind, modify.
  repeat (rewrite on_page_poll
            by (apply try_catch_completes; intros e p'; reflexivity);
          cbv beta iota).
  split; reflexivity.
Qed.

(** X17.  Every call of [startModbusUpdate] adds a Modbus interval that
    nothing can clear.  The handle of the interval is kept nowhere: after
    [n] calls [n] more Modbus intervals run, each every 2000 ms, while the
    two handles of the window and the Status and chart intervals are what
    they were. *)
Theorem modbus_intervals_accumulate (rss : list Replies) (c : Client) :
  let c' := fold_left (fun c rs => snd (startModbusUpdate rs c)) rss c in
  List.length (timers_of ModbusTask (timers c'))
  = List.length (timers_of ModbusTask (timers c)) + List.length rss /\
  (forall tm, In tm (timers_of ModbusTask (timers c')) ->
     In tm (timers_of ModbusTask (timers c)) \/ timer_ms tm = 2000) /\
  updateInterval (timers c') = updateInterval (timers c) /\
  chartInterval (timers c') = chartInterval (timers c) /\
  timers_of StatusTask (timers c') = timers_of StatusTask (timers c) /\
  timers_of ChartTask (timers c') = timers_of ChartTask (timers c).
Proof.
  cbv zeta. revert c. induction rss as [|rs rss IH]; intros c.
  - simpl. repeat split; try lia. intros tm Hin. now left.
  - cbn [fold_left List.length].
    destruct (startModbusUpdate_step rs c) as [_ Ht].
    destruct (IH (snd (startModbusUpdate rs c)))
      as (Hlen & Hms & Hu & Hc & Hs & Hch).
    rewrite Hlen, Hu, Hc, Hs, Hch, Ht.
    unfold timers_of, setInterval. cbn [snd active updateInterval chartInterval].
    rewrite !filter_app. cbn. rewrite !app_nil_r, length_app. cbn.
    repeat split; try lia.
    intros tm Hin. destruct (Hms tm Hin) as [Hold|Hnew]; [|now right].
    rewrite Ht in Hold. unfold timers_of, setInterval in Hold.
    cbn [snd active] in Hold. rewrite filter_app in Hold.
    apply in_app_or in Hold. destruct Hold as [Hold|Hold]; [now left|].
    cbn in Hold. destruct Hold as [Hold|[]]. right. now subst tm.
Qed.

End StartupClaims.

Lemma startup_starts_everything_witness :
  forallb all_present startup_ids = true /\
  List.length
    (active (timers (snd (@onDOMContentLoaded sample_host all_present
                            (num_of_Z 5) failing_replies fresh_client)))) = 3.
Proof.
  split; [reflexivity|].
  pose proof (@startup_starts_everything sample_host all_present (num_of_Z 5)
                failing_replies eq_refl) as Hw.
  cbv zeta in Hw. destruct Hw as (_ & Hw & _).
  apply (f_equal (@List.length _)) in Hw. rewrite length_map in Hw. exact Hw.
Defined.

Lemma startup_needs_every_element_witness :
  forallb without_button startup_ids = false /\
  active (timers (snd (@onDOMContentLoaded sample_host without_button
                         (num_of_Z 5) failing_replies fresh_client))) = [].
Proof.
  split; [reflexivity|].
  pose proof (@startup_needs_every_element sample_host without_button
                (num_of_Z 5) failing_replies fresh_client eq_refl) as Hw.
  cbv zeta in Hw. destruct Hw as (_ & Hw & _). now rewrite Hw.
Defined.

(* ------------------------------------------------------------------ *)
(** ** Ticks *)

Section Ticks.
Context `{Host}.
Variable now : number.
Variable replies : Replies.

(** X18.  A tick never stops the intervals.  Whatever task fires and
    whatever the network answers, the callback completes, leaves the timers
    and the listeners as they were, and issues the requests of its task in
    their order: one Status request, or the time-series request followed by
    the hourly one, or the health request followed by the log one. *)
Theorem tick_keeps_intervals (task : Task) (c : Client) :
  let r := fire now replies task c in
  fst r = Normal tt /\
  timers (snd r) = timers c /\
  listeners (snd r) = listeners c /\
  requests (page (snd r))
  = (requests (page c) ++
     match task with
     | StatusTask => [get "/api/status"]
     | ChartTask => [get "/api/timeseries"; get "/api/hourly"]
     | ModbusTask => [get "/api/modbus/status"; get "/api/modbus/log?limit=20"]
     end)%list.
Proof.
  cbv zeta. destruct task; unfold fire, bind;
    repeat (rewrite on_page_poll
              by (apply try_catch_completes; intros e p'; reflexivity);
            cbv beta iota);
    cbn [fst snd timers listeners page with_page];
    (do 3 (split; [reflexivity|])).
  - apply (proj1 (poller_requests now _ _)).
  - rewrite (proj1 (proj2 (proj2 (poller_requests now _ _)))).
    rewrite (proj1 (proj2 (poller_requests now _ _))).
    now rewrite <- app_assoc.
  - rewrite (proj2 (proj2 (proj2 (proj2 (poller_requests now _ _))))).
    rewrite (proj1 (proj2 (proj2 (proj2 (poller_requests now _ _))))).
    now rewrite <- app_assoc.
Qed.

End Ticks.

(* ------------------------------------------------------------------ *)
(** ** The properties above at work *)

Lemma hourly_without_data_witness :
  is_transport_failure (BadBody sample_error) = true /\
  not_nullish (JObj []) = true /\
  @has_items sample_host (member (JObj []) "hourly_data") = false /\
  not_nullish JNull = false /\
  hourly_list (snd (@updateHourlyData sample_host (BadBody sample_error) blank_page))
  = [] /\
  hourly_list (snd (@updateHourlyData sample_host (Json (JObj [])) blank_page))
  = [HourlyNotice no_data_text] /\
  hourly_list (snd (@updateHourlyData sample_host (Json JNull) blank_page)) = [].
Proof.
  do 4 (split; [reflexivity|]).
  pose proof (@hourly_without_data sample_host blank_page) as (Hw1 & Hw2 & Hw3).
  split; [exact (Hw1 (BadBody sample_error) eq_refl)|].
  split; [exact (Hw2 (JObj []) eq_refl eq_refl) | exact (Hw3 JNull eq_refl)].
Defined.

Lemma hourly_stops_at_bad_record_witness :
  let items := [hourly_record 1; broken_hour; hourly_record 3] in
  let result := JObj [("hourly_data", JArr items)] in
  not_nullish result = true /\
  member result "hourly_data" = JArr ([hourly_record 1] ++ broken_hour :: [hourly_record 3]) /\
  List.length items <= 24 /\
  forallb wf_hourly [hourly_record 1] = true /\
  wf_hourly broken_hour = false /\
  hourly_list (snd (@updateHourlyData sample_host (Json result) blank_page))
  = [@hourly_row sample_host (hourly_record 1)].
Proof.
  cbv zeta. split; [reflexivity|]. split; [reflexivity|].
  split; [simpl; lia|]. split; [reflexivity|]. split; [reflexivity|].
  pose proof (@hourly_stops_at_bad_record sample_host
                (JObj [("hourly_data",
                        JArr [hourly_record 1; broken_hour; hourly_record 3])])
                [hourly_record 1] [hourly_record 3] broken_hour blank_page
                eq_refl eq_refl ltac:(simpl; lia) eq_refl eq_refl) as Hw.
  cbv zeta in Hw. destruct Hw as (_ & Hw & _). exact Hw.
Defined.

Lemma log_entry_detail_witness :
  @wf_log sample_host log_without_address = true /\
  not_nullish (member log_without_address "address") = false /\
  @detail_fields sample_host log_without_address <> [] /\
  exists entry,
    @logEntry sample_host log_without_address = Normal entry /\
    log_detail entry = Some ", 수량: 2".
Proof.
  split; [reflexivity|]. split; [reflexivity|]. split; [discriminate|].
  destruct (@log_entry_detail sample_host log_without_address eq_refl)
    as (entry & He & _ & _ & Hd).
  exists entry. split; [exact He|].
  rewrite (Hd eq_refl ltac:(discriminate)). reflexivity.
Defined.



Lemma null_stat_ends_in_query_alert_witness :
  not_nullish healthy_with_null_stat = true /\
  truthy (member healthy_with_null_stat "available") = true /\
  not_nullish (member healthy_with_null_stat "status") = true /\
  let r := @updateModbusStatus sample_host (Json healthy_with_null_stat)
             blank_page in
  textContent (modbus_status (modbus (snd r))) = "실행 중" /\
  option_map node_message (modbusAlertElement (alert (snd r)))
  = Some query_error_text.
Proof.
  do 3 (split; [reflexivity|]).
  pose proof (@null_stat_ends_in_query_alert sample_host healthy_with_null_stat
                [("1", JObj [("total_requests", num 4)])] [("3", JObj [])]
                "2" JNull blank_page
                eq_refl eq_refl eq_refl eq_refl eq_refl eq_refl) as Hw.
  cbv zeta in Hw |- *. destruct Hw as (_ & Ht & _ & _ & Ha).
  split; [exact Ht | now rewrite Ha].
Defined.

Lemma summary_without_inverters_witness :
  not_nullish snapshot_without_arrays = true /\
  has_numbers (member snapshot_without_arrays "total_power")
    ["total_active_power_kw"; "utilization_percent"; "total_reactive_power_kvar"]
  = true /\
  is_num (member snapshot_without_arrays "total_capacity_mva") = true /\
  is_array (member snapshot_without_arrays "inverters") = false /\
  let before :=
    snd (@updateStatus sample_host (num_of_Z 5) (Json sample_snapshot) blank_page) in
  List.length (inverters_grid (status before)) = 2 /\
  inverters_grid
    (status (snd (@updateStatus sample_host (num_of_Z 6)
                    (Json snapshot_without_arrays) before))) = [].
Proof.
  do 4 (split; [reflexivity|]). cbv zeta. split; [reflexivity|].
  pose proof (@summary_without_inverters sample_host (num_of_Z 6)
                snapshot_without_arrays
                (snd (@updateStatus sample_host (num_of_Z 5)
                        (Json sample_snapshot) blank_page))
                eq_refl eq_refl eq_refl eq_refl) as Hw.
  cbv zeta in Hw. destruct Hw as (_ & Hw & _). exact Hw.
Defined.

Lemma show_then_hide_restores_witness :
  modbusAlertElement blank_alert = None /\
  modbus_section
    (hideModbusAlert (@showModbusAlert sample_host (JStr "first") blank_alert))
  = modbus_section blank_alert.
Proof.
  split; [reflexivity|].
  assert (Hfresh : forall children n,
            modbus_section blank_alert = Some children -> In n children ->
            node_id n < next_node blank_alert).
  { intros children n Hc Hin. inversion Hc; subst children.
    destruct Hin as [Hn|[]]. subst n. simpl. lia. }
  pose proof (@show_then_hide_restores sample_host (JStr "first") blank_alert
                eq_refl Hfresh) as (Hw & _).
  exact Hw.
Defined.

Lemma clear_log_is_cosmetic_witness :
  is_transport_failure (NetworkError sample_error) = true /\
  modbus_log
    (modbus (snd (@updateModbusLog sample_host (NetworkError sample_error)
                    (clearLog blank_page)))) = [LogNotice cleared_text].
Proof.
  split; [reflexivity|].
  pose proof (@clear_log_is_cosmetic sample_host blank_page) as (_ & _ & Hw).
  exact (Hw (NetworkError sample_error) eq_refl).
Defined.

Lemma health_without_status_witness :
  not_nullish health_without_status_payload = true /\
  truthy (member health_without_status_payload "available") = true /\
  member health_without_status_payload "status" = JUndef /\
  let r := @updateModbusStatus sample_host (Json health_without_status_payload)
             blank_page in
  modbus (snd r) = modbus blank_page /\
  option_map node_message (modbusAlertElement (alert (snd r)))
  = Some query_error_text.
Proof.
  do 3 (split; [reflexivity|]).
  pose proof (@health_without_status sample_host health_without_status_payload
                blank_page eq_refl eq_refl eq_refl) as Hw.
  cbv zeta in Hw |- *. destruct Hw as (Hm & Ha).
  split; [exact Hm | now rewrite Ha].
Defined.

(* ------------------------------------------------------------------ *)
(** ** The Status render keeps nothing of the previous one *)

Section Wholesale.
Context `{Host}.

(** X20.  A well-formed snapshot replaces the Status region wholesale.  What
    the region shows after the poll depends on the payload and on the clock
    only, not on what it showed before: no card and no text of an earlier
    snapshot survive, and polling the same snapshot again changes nothing. *)
Theorem status_render_forgets_previous (now : number) (data : JsVal) (p q : Page) :
  wf_snapshot data = true ->
  status (snd (updateStatus now (Json data) p))
  = status (snd (updateStatus now (Json data) q)) /\
  status (snd (updateStatus now (Json data)
                 (snd (updateStatus now (Json data) p))))
  = status (snd (updateStatus now (Json data) p)).
Proof.
  intros Hw.
  assert (Hs : forall x,
    status (snd (updateStatus now (Json data) x))
    = {| plant_id := "발전소: " ++ to_string (member data "plant_id");
         update_time := "업데이트: " ++ toLocaleTimeString (JNum now);
         total_power :=
           reading (member data "total_power") "total_active_power_kw" 2;
         utilization :=
           reading (member data "total_power") "utilization_percent" 2;
         reactive_power :=
           reading (member data "total_power") "total_reactive_power_kvar" 2;
         rated_capacity := reading data "total_capacity_mva" 2;
         inverters_grid :=
           cards_from 0 (items_of (member data "inverters"))
                        (items_of (member data "pv_generators")) |}).
  { intros x. unfold updateStatus, try_catch, fetch_json, bind, modify, ret.
    cbv beta iota. rewrite (updateUI_ok now data _ Hw). reflexivity. }
  split; now rewrite !Hs.
Qed.

End Wholesale.

Lemma status_render_forgets_previous_witness :
  wf_snapshot sample_snapshot = true /\
  status (snd (@updateStatus sample_host (num_of_Z 5) (Json sample_snapshot)
                 blank_page))
  = status (snd (@updateStatus sample_host (num_of_Z 5) (Json sample_snapshot)
                   (snd (@updateStatus sample_host (num_of_Z 4)
                           (Json error_payload) blank_page)))).
Proof.
  split; [reflexivity|].
  pose proof (@status_render_forgets_previous sample_host (num_of_Z 5)
                sample_snapshot blank_page
                (snd (@updateStatus sample_host (num_of_Z 4)
                        (Json error_payload) blank_page)) eq_refl) as (Hw & _).
  exact Hw.
Defined.
